(** * dataset_comparison_app.py: the comparison engine and the column matcher

    A shallow embedding of [compare_datasets] and [get_matching_columns]
    from [dataset_comparison_app.py].

    [compare_datasets] is written against pandas.  The pandas operations it
    calls ([DataFrame.copy], [DataFrame.rename], [pd.merge] with
    [how='outer', indicator=True], [Series.map], boolean-mask selection,
    column assignment, [len]) are modelled below, first on frame values and
    then on frame objects held in an object store, so that copies, fresh
    results and the one in-place update ([merged['Dataset'] = ...]) are
    visible.  [st.error] is modelled as an append to a log of
    user-interface events.

    The model of [pd.merge] follows pandas 2: the join keys are looked up in
    the right and in the left frame ([KeyError] when a key is absent,
    [ValueError] when its label is not unique), the names the indicator
    needs must be free ([ValueError]), an empty list of keys ends in
    [IndexError], and a suffix [_x] or [_y] that creates a duplicate label
    ends in [MergeError].

    Boundaries of the model:
    - a cell is text, an integer number, a boolean or missing (NaN/None);
      numbers with a fractional part are not represented;
    - [pd.merge] also compares the dtypes of the key columns and raises on
      some combinations (object against numeric, ...); that check is not
      modelled, key cells are compared by value;
    - two key cells match when they are the same cell.  pandas compares the
      key columns after bringing them to one dtype: a column of booleans
      against a column of numbers is compared as objects, where [True]
      equals [1], and [int64] against [float64] is compared as [float64],
      where integers beyond [2^53] collapse.  Statements that read a
      non-match off the cells are stated for frames of [plain_cell]s, on
      which the two comparisons agree;
    - for an outer join pandas orders the groups of joined rows by key; the
      model lists them in left-major order (the rows of the left frame with
      their matches, then the unmatched rows of the right frame).  The
      properties proved here are about membership, filtering and counting
      and do not depend on that order. *)

From Stdlib Require Import ZArith String List Bool Lia.
From stdpp Require Import base gmap strings list.

Open Scope string_scope.
Open Scope list_scope.

(** ** Data model *)

(** A cell value: the tagged union text | number | boolean | missing. *)
Inductive Cell : Type :=
| CText (s : string)
| CNum (z : Z)
| CBool (b : bool)
| CMissing.

#[global] Instance Cell_eq_dec : EqDecision Cell.
Proof. solve_decision. Defined.

(** A row is the tuple of its cells, by column position. *)
Definition Row : Type := list Cell.

(** A pandas [DataFrame]: column labels (duplicates are possible after a
    rename or a merge) and the rows. *)
Record DataFrame : Type := mkFrame {
  columns : list string;
  rows : list Row
}.

#[global] Instance DataFrame_eq_dec : EqDecision DataFrame.
Proof. solve_decision. Defined.

(** [pd.DataFrame()] *)
Definition empty_frame : DataFrame := mkFrame [] [].

(** [len(df)] *)
Definition len (df : DataFrame) : nat := length (rows df).

(** The cell of a row at a column position; a row too short reads as
    missing. *)
Definition cell (r : Row) (i : nat) : Cell := nth i r CMissing.

(** A Python [dict] from strings to strings, in insertion order. *)
Definition Dict : Type := list (string * string).

Definition dict_get (d : Dict) (k : string) : option string :=
  match List.find (fun p => String.eqb (fst p) k) d with
  | Some p => Some (snd p)
  | None => None
  end.

(** [list(d.keys())] *)
Definition keys (d : Dict) : list string := List.map fst d.

(** The exceptions pandas raises on the paths of [compare_datasets]. *)
Inductive Exn : Type :=
| KeyError (label : string)
| ValueError (msg : string)
| IndexError
| MergeError (dups : list string)
| TypeError
| AttributeError.

Inductive Result (A : Type) : Type :=
| Ok (a : A)
| Raise (e : Exn).
Arguments Ok {A} a.
Arguments Raise {A} e.

Definition rbind {A B} (r : Result A) (f : A -> Result B) : Result B :=
  match r with
  | Ok a => f a
  | Raise e => Raise e
  end.

(** ** pandas operations on frame values *)

(** [df.rename(columns=d)]: a label [c] becomes [d[c]] when [c] is a key of
    [d] and is kept otherwise (labels of [d] absent from the frame are
    ignored). *)
Definition rename_label (d : Dict) (c : string) : string :=
  match dict_get d c with
  | Some c' => c'
  | None => c
  end.

Definition rename (df : DataFrame) (d : Dict) : DataFrame :=
  mkFrame (List.map (rename_label d) (columns df)) (rows df).

(** Positions of a label among the column labels. *)
Definition positions (k : string) (cols : list string) : list nat :=
  List.filter (fun i => bool_decide (cols !! i = Some k)) (seq 0 (length cols)).

(** [df._get_label_or_level_values(k)], as the position of the one column
    labelled [k]: [KeyError] when there is none, [ValueError] when the label
    is not unique. *)
Definition label_position (cols : list string) (k : string) : Result nat :=
  match positions k cols with
  | [] => Raise (KeyError k)
  | [i] => Ok i
  | _ => Raise (ValueError ("The column label '" +:+ k +:+ "' is not unique."))
  end.

(** [_get_merge_keys]: for every join key, its column in the right frame and
    then in the left frame. *)
Fixpoint get_merge_keys (lcols rcols : list string) (on : list string)
  : Result (list (nat * nat)) :=
  match on with
  | [] => Ok []
  | k :: on' =>
      rbind (label_position rcols k) (fun ri =>
      rbind (label_position lcols k) (fun li =>
      rbind (get_merge_keys lcols rcols on') (fun rest =>
      Ok ((li, ri) :: rest))))
  end.

Definition mem (x : string) (l : list string) : bool := bool_decide (x ∈ l).

(** [_indicator_pre_merge]: the names the indicator needs must be free. *)
Definition indicator_pre_merge (lcols rcols : list string) : Result unit :=
  if mem "_left_indicator" (lcols ++ rcols) then
    Raise (ValueError "Cannot use `indicator=True` option when data contains a column named _left_indicator")
  else if mem "_right_indicator" (lcols ++ rcols) then
    Raise (ValueError "Cannot use `indicator=True` option when data contains a column named _right_indicator")
  else if mem "_merge" (lcols ++ rcols) then
    Raise (ValueError "Cannot use name of an existing column for indicator column")
  else Ok tt.

(** The key of a row: its cells at the key positions. *)
Definition key_tuple (idx : list nat) (r : Row) : list Cell :=
  List.map (cell r) idx.

(** Two rows join when their keys are equal cell by cell.  pandas factorizes
    the key values and gives all missing values one code, so a missing cell
    matches a missing cell.  Equal cells always match in pandas; the matches
    pandas finds between different cells (a boolean with a number, two
    integers that are one [float64]) are outside the model, see
    [plain_cell]. *)
Definition keys_match (lidx ridx : list nat) (l r : Row) : bool :=
  bool_decide (key_tuple lidx l = key_tuple ridx r).

(** One row of the join: a left row paired with a right row, a left row
    alone, or a right row alone. *)
Inductive Joined : Type :=
| JBoth (l r : Row)
| JLeft (l : Row)
| JRight (r : Row).

(** The full outer join of the rows: every left row with each right row of
    the same key (or alone), then the right rows no left row matches. *)
Definition full_outer_join (lidx ridx : list nat) (ls rs : list Row)
  : list Joined :=
  List.flat_map
    (fun l =>
       match List.filter (keys_match lidx ridx l) rs with
       | [] => [JLeft l]
       | ms => List.map (JBoth l) ms
       end) ls
  ++ List.map JRight
       (List.filter
          (fun r => negb (List.existsb (fun l => keys_match lidx ridx l r) ls))
          rs).

(** [Index.duplicated()]: marks every occurrence of a label after its
    first. *)
Fixpoint duplicated (seen : list string) (l : list string) : list bool :=
  match l with
  | [] => []
  | x :: xs => mem x seen :: duplicated (x :: seen) xs
  end.

(** The labels that became duplicates through the suffix:
    [new[new.duplicated() & ~orig.duplicated()]]. *)
Definition suffix_dups (orig new : list string) : list string :=
  List.map fst
    (List.filter snd
       (List.combine new
          (List.map (fun p => andb (fst p) (negb (snd p)))
             (List.combine (duplicated [] new) (duplicated [] orig))))).

(** A label that needs a suffix gets it. *)
Definition add_suffix (to_rename : list string) (suffix : string) (c : string)
  : string :=
  if mem c to_rename then c +:+ suffix else c.

(** [left.intersection(right)]: the labels carried by both sides. *)
Definition to_rename (lcols rcols : list string) : list string :=
  List.filter (fun c => mem c rcols) lcols.

(** [_items_overlap_with_suffix] with the default suffixes [_x] and [_y]:
    a label carried by both sides gets the suffix of its side;
    pandas 2 raises [MergeError] when a suffix creates a duplicate label
    within one side. *)
Definition items_overlap_with_suffix (lcols rcols : list string)
  : Result (list string * list string) :=
  let llabels := List.map (add_suffix (to_rename lcols rcols) "_x") lcols in
  let rlabels := List.map (add_suffix (to_rename lcols rcols) "_y") rcols in
  match suffix_dups lcols llabels ++ suffix_dups rcols rlabels with
  | [] => Ok (llabels, rlabels)
  | dups => Raise (MergeError dups)
  end.

(** The columns of the right frame that are not join keys (the key columns
    are dropped from the right frame before the two sides are put
    together): their positions and their labels. *)
Definition nonkey_positions (cols on : list string) : list nat :=
  List.filter (fun j => negb (mem (nth j cols "") on)) (seq 0 (length cols)).

Definition nonkey_labels (cols on : list string) : list string :=
  List.map (fun j => nth j cols "") (nonkey_positions cols on).

(** The join indicator, a categorical with these three values. *)
Inductive Indicator : Type := left_only | right_only | both.

Definition indicator_name (i : Indicator) : string :=
  match i with
  | left_only => "left_only"
  | right_only => "right_only"
  | both => "both"
  end.

Definition indicator_of (j : Joined) : Indicator :=
  match j with
  | JBoth _ _ => both
  | JLeft _ => left_only
  | JRight _ => right_only
  end.

(** The position of [p] in a list of positions. *)
Fixpoint index_of (p : nat) (l : list nat) : option nat :=
  match l with
  | [] => None
  | q :: l' =>
      if Nat.eqb p q then Some 0
      else match index_of p l' with
           | Some j => Some (S j)
           | None => None
           end
  end.

(** The cells of a joined row before the indicator: the left columns, then
    the right columns that are not keys.  A row found only on the right
    carries its key cells in the key columns; the side that is absent reads
    as missing. *)
Definition joined_body (nl : nat) (idx : list (nat * nat)) (rnk : list nat)
    (j : Joined) : Row :=
  match j with
  | JBoth l r =>
      List.map (cell l) (seq 0 nl) ++ List.map (cell r) rnk
  | JLeft l =>
      List.map (cell l) (seq 0 nl) ++ List.map (fun _ => CMissing) rnk
  | JRight r =>
      List.map
        (fun p =>
           match index_of p (List.map fst idx) with
           | Some j => cell r (nth j (List.map snd idx) 0)
           | None => CMissing
           end) (seq 0 nl)
      ++ List.map (cell r) rnk
  end.

(** The cells of a joined row, the indicator [_merge] last. *)
Definition joined_cells (nl : nat) (idx : list (nat * nat)) (rnk : list nat)
    (j : Joined) : Row :=
  joined_body nl idx rnk j ++ [CText (indicator_name (indicator_of j))].

(** [pd.merge(left, right, on=on, how='outer', indicator=True)] *)
Definition merge (left right : DataFrame) (on : list string)
  : Result DataFrame :=
  rbind (get_merge_keys (columns left) (columns right) on) (fun idx =>
  let rnk := nonkey_positions (columns right) on in
  let rcols := nonkey_labels (columns right) on in
  rbind (indicator_pre_merge (columns left) rcols) (fun _ =>
  match on with
  | [] => Raise IndexError
  | _ =>
      rbind (items_overlap_with_suffix (columns left) rcols) (fun labels =>
      Ok (mkFrame
            (fst labels ++ snd labels ++ ["_merge"])
            (List.map (joined_cells (length (columns left)) idx rnk)
               (full_outer_join (List.map fst idx) (List.map snd idx)
                  (rows left) (rows right)))))
  end)).

(** [df[label]]: the cells of the column when the label is unique, the
    sub-frame of all columns with that label when it is not. *)
Inductive Selection : Type :=
| Series (cells : list Cell)
| Frame (df : DataFrame).

Definition getitem (df : DataFrame) (label : string) : Result Selection :=
  match positions label (columns df) with
  | [] => Raise (KeyError label)
  | [i] => Ok (Series (List.map (fun r => cell r i) (rows df)))
  | ps =>
      Ok (Frame (mkFrame (List.map (fun _ => label) ps)
                   (List.map (fun r => List.map (cell r) ps) (rows df))))
  end.

(** [Series.map(d)]: a value that is a key of [d] becomes its image, any
    other value becomes missing.  On a frame, [map] takes a function (from
    pandas 2.1; before, the attribute is absent) and a [dict] is refused. *)
Definition map_cell (d : Dict) (c : Cell) : Cell :=
  match c with
  | CText s =>
      match dict_get d s with
      | Some s' => CText s'
      | None => CMissing
      end
  | _ => CMissing
  end.

Definition map_dict (sel : Selection) (d : Dict) : Result (list Cell) :=
  match sel with
  | Series cells => Ok (List.map (map_cell d) cells)
  | Frame _ => Raise TypeError
  end.

(** Replace the cell at position [i] of a row (a row too short is first
    filled with missing cells). *)
Definition set_cell (r : Row) (i : nat) (c : Cell) : Row :=
  <[i := c]> (r ++ replicate (S i - length r) CMissing).

(** [df[label] = values] on the frame value: the column labelled [label]
    takes the new cells; a new label adds a column at the end. *)
Definition setitem (df : DataFrame) (label : string) (values : list Cell)
  : DataFrame :=
  match positions label (columns df) with
  | [] =>
      mkFrame (columns df ++ [label])
        (List.map (fun p => set_cell (fst p) (length (columns df)) (snd p))
           (List.combine (rows df) values))
  | ps =>
      mkFrame (columns df)
        (List.map
           (fun p => List.fold_left (fun r i => set_cell r i (snd p)) ps (fst p))
           (List.combine (rows df) values))
  end.

(** [series != label]: element-wise, a missing value differs from every
    label. *)
Definition series_ne (cells : list Cell) (label : string) : list bool :=
  List.map (fun c => negb (bool_decide (c = CText label))) cells.

(** [df[mask]]: the rows where the mask holds. *)
Definition select_rows (df : DataFrame) (mask : list bool) : DataFrame :=
  mkFrame (columns df)
    (List.map fst (List.filter snd (List.combine (rows df) mask))).

(** [sel != label] for the selection [df[...]] returns.  On a sub-frame the
    comparison yields a frame of booleans, which is no row mask; that path
    is cut off earlier, where [map] refuses the sub-frame. *)
Definition ne_label (sel : Selection) (label : string) : Result (list bool) :=
  match sel with
  | Series cells => Ok (series_ne cells label)
  | Frame _ => Raise TypeError
  end.

(** ** The object store and the user interface *)

(** A reference to a frame object. *)
Definition Ref : Type := nat.

(** What [st.error(f"...: {str(e)}")] shows: the prefix and the exception
    whose text follows it. *)
Inductive UiEvent : Type :=
| StError (prefix : string) (e : Exn).

Record State : Type := mkState {
  frames : gmap nat DataFrame;
  ui : list UiEvent
}.

(** Computations that read and update the state and may raise. *)
Definition M (A : Type) : Type := State -> Result A * State.

Definition ret {A} (a : A) : M A := fun s => (Ok a, s).

Definition bind {A B} (c : M A) (k : A -> M B) : M B :=
  fun s =>
    match c s with
    | (Ok a, s') => k a s'
    | (Raise e, s') => (Raise e, s')
    end.

Definition lift {A} (r : Result A) : M A := fun s => (r, s).

(** [try: body except Exception as e: handler(e)] *)
Definition try_except {A} (body : M A) (handler : Exn -> M A) : M A :=
  fun s =>
    match body s with
    | (Ok a, s') => (Ok a, s')
    | (Raise e, s') => handler e s'
    end.

Declare Scope prog_scope.
Delimit Scope prog_scope with prog.
Notation "x <- c ;; k" := (bind c (fun x => k))
  (at level 100, c at next level, right associativity) : prog_scope.
Notation "c ;; k" := (bind c (fun _ => k))
  (at level 100, right associativity) : prog_scope.

(** A new object gets a reference no object of the store has. *)
Definition alloc (df : DataFrame) : M Ref :=
  fun s =>
    let r := fresh (dom (frames s)) in
    (Ok r, mkState (<[r := df]> (frames s)) (ui s)).

Definition read (r : Ref) : M DataFrame :=
  fun s =>
    match frames s !! r with
    | Some df => (Ok df, s)
    | None => (Raise AttributeError, s)
    end.

(** In-place update of the object behind a reference. *)
Definition write (r : Ref) (df : DataFrame) : M unit :=
  fun s => (Ok tt, mkState (<[r := df]> (frames s)) (ui s)).

Definition st_error (prefix : string) (e : Exn) : M unit :=
  fun s => (Ok tt, mkState (frames s) (ui s ++ [StError prefix e])).

(** ** pandas operations on frame objects *)

Section Objects.
Local Open Scope prog_scope.

(** [df.copy()] *)
Definition df_copy (r : Ref) : M Ref :=
  df <- read r ;; alloc df.

(** [df.rename(columns=d)]: a new object, the receiver is not touched. *)
Definition df_rename (r : Ref) (d : Dict) : M Ref :=
  df <- read r ;; alloc (rename df d).

(** [pd.merge(l, r, on=on, how='outer', indicator=True)] *)
Definition pd_merge (l r : Ref) (on : list string) : M Ref :=
  a <- read l ;;
  b <- read r ;;
  m <- lift (merge a b on) ;;
  alloc m.

(** [df[label]] *)
Definition df_getitem (r : Ref) (label : string) : M Selection :=
  df <- read r ;; lift (getitem df label).

(** [df[label] = values], in place. *)
Definition df_setitem (r : Ref) (label : string) (values : list Cell) : M unit :=
  df <- read r ;; write r (setitem df label values).

(** [df[mask]] *)
Definition df_select (r : Ref) (mask : list bool) : M Ref :=
  df <- read r ;; alloc (select_rows df mask).

(** [len(df)] *)
Definition df_len (r : Ref) : M nat :=
  df <- read r ;; ret (len df).

(** ** [compare_datasets] *)

Definition only_in (filename : string) : string := "Only in " +:+ filename.

Definition in_both (left_filename right_filename : string) : string :=
  "In both " +:+ left_filename +:+ " and " +:+ right_filename.

(** [merged[merged['Dataset'] != label]] *)
Definition rows_not_labelled (merged : Ref) (label : string) : M Ref :=
  sel <- df_getitem merged "Dataset" ;;
  mask <- lift (ne_label sel label) ;;
  df_select merged mask.

(** The first half of the [try] block: copy, rename, merge, and label the
    indicator column.  Returns the object [merged]. *)
Definition merge_and_label (df1 df2 : Ref) (column_mapping : Dict)
    (left_filename right_filename : string) : M Ref :=
  (* Create copies to avoid modifying original dataframes *)
  df1_copy <- df_copy df1 ;;
  df2_copy <- df_copy df2 ;;
  (* Rename columns in second dataframe according to mapping *)
  df2_copy <- df_rename df2_copy column_mapping ;;
  (* Perform merge *)
  merged <- pd_merge df1_copy df2_copy (keys column_mapping) ;;
  (* Rename the _merge column to use actual filenames *)
  merged <- df_rename merged [("_merge", "Dataset")] ;;
  sel <- df_getitem merged "Dataset" ;;
  labelled <- lift (map_dict sel
                [("left_only", only_in left_filename);
                 ("right_only", only_in right_filename);
                 ("both", in_both left_filename right_filename)]) ;;
  df_setitem merged "Dataset" labelled ;;
  ret merged.

Definition compare_datasets (df1 df2 : Ref) (column_mapping : Dict)
    (left_filename right_filename : string) : M (bool * Ref) :=
  try_except
    (merged <- merge_and_label df1 df2 column_mapping
                 left_filename right_filename ;;
     (* Check if datasets are identical *)
     others <- rows_not_labelled merged (in_both left_filename right_filename) ;;
     n <- df_len others ;;
     is_identical <-
       (if Nat.eqb n 0 then
          n1 <- df_len df1 ;;
          n2 <- df_len df2 ;;
          ret (Nat.eqb n1 n2)
        else ret false) ;;
     (* Get mismatched rows *)
     mismatched <- rows_not_labelled merged (in_both left_filename right_filename) ;;
     ret (is_identical, mismatched))
    (fun e =>
       st_error "Error comparing datasets: " e ;;
       empty <- alloc empty_frame ;;
       ret (false, empty)).

End Objects.

(** ** [get_matching_columns] *)

Definition get_matching_columns (left_cols right_cols : gset string)
  : gset string * gset string * gset string :=
  let matching := left_cols ∩ right_cols in
  let left_only := left_cols ∖ right_cols in
  let right_only := right_cols ∖ left_cols in
  (matching, left_only, right_only).

(** ** Running a comparison on two frame values *)

(** The state a caller holds before the call: the two loaded frames. *)
Definition initial_state (left right : DataFrame) : State :=
  mkState (<[1 := right]> (<[0 := left]> ∅)) [].

(** The flag and the frame [compare_datasets] returns for two frame
    values. *)
Definition compare (left right : DataFrame) (mapping : Dict)
    (left_filename right_filename : string) : option (bool * DataFrame) :=
  match compare_datasets 0 1 mapping left_filename right_filename
          (initial_state left right) with
  | (Ok (flag, r), s) =>
      match frames s !! r with
      | Some df => Some (flag, df)
      | None => None
      end
  | (Raise _, _) => None
  end.

(** ** The values a run computes

    The frame values behind the references of a run, as functions of the
    two input frames.  [merge_and_label_run] and [compare_datasets_run]
    below show that the program computes exactly these. *)

(** The frame [merged] after the labelling. *)
Definition labelled_join (left right : DataFrame) (mapping : Dict)
    (left_filename right_filename : string) : Result DataFrame :=
  rbind (merge left (rename right mapping) (keys mapping)) (fun merged =>
  let merged := rename merged [("_merge", "Dataset")] in
  rbind (getitem merged "Dataset") (fun sel =>
  rbind (map_dict sel
           [("left_only", only_in left_filename);
            ("right_only", only_in right_filename);
            ("both", in_both left_filename right_filename)]) (fun labelled =>
  Ok (setitem merged "Dataset" labelled)))).

(** [merged[merged['Dataset'] != label]] on a frame value. *)
Definition not_labelled (merged : DataFrame) (label : string)
  : Result DataFrame :=
  rbind (getitem merged "Dataset") (fun sel =>
  rbind (ne_label sel label) (fun mask =>
  Ok (select_rows merged mask))).

(** What the [try] block returns, or the exception it raises. *)
Definition try_block (left right : DataFrame) (mapping : Dict)
    (left_filename right_filename : string) : Result (bool * DataFrame) :=
  rbind (labelled_join left right mapping left_filename right_filename)
    (fun merged =>
  rbind (not_labelled merged (in_both left_filename right_filename))
    (fun others =>
  Ok (Nat.eqb (len others) 0 && Nat.eqb (len left) (len right), others))).

(** The flag, the returned frame and the messages shown. *)
Definition outcome (left right : DataFrame) (mapping : Dict)
    (left_filename right_filename : string) : bool * DataFrame * list UiEvent :=
  match try_block left right mapping left_filename right_filename with
  | Ok (flag, diff) => (flag, diff, [])
  | Raise e => (false, empty_frame, [StError "Error comparing datasets: " e])
  end.

(** ** Classification of joined rows *)

(** The label [Series.map] gives to an indicator value. *)
Definition class_label (left_filename right_filename : string) (i : Indicator)
  : string :=
  match i with
  | left_only => only_in left_filename
  | right_only => only_in right_filename
  | both => in_both left_filename right_filename
  end.

(** The cell of a row in the column [Dataset] of a frame. *)
Definition dataset_cell (df : DataFrame) (r : Row) : Cell :=
  match positions "Dataset" (columns df) with
  | [i] => cell r i
  | _ => CMissing
  end.

(** The test of [merged['Dataset'] != label], on one row. *)
Definition differs_from (label : string) (df : DataFrame) (r : Row) : bool :=
  negb (bool_decide (dataset_cell df r = CText label)).

(** [{v: k for k, v in mapping.items()}] for a one-to-one mapping. *)
Definition invert (mapping : Dict) : Dict :=
  List.map (fun p => (snd p, fst p)) mapping.

(** ** Scenarios *)

(** Two rows with the same key on the left, one such row on the right. *)
Definition scenario3_left : DataFrame :=
  mkFrame ["id"; "v"] [[CNum 1; CText "a"]; [CNum 1; CText "a"]].

Definition scenario3_right : DataFrame :=
  mkFrame ["id"; "v"] [[CNum 1; CText "a"]].

Definition scenario_mapping : Dict := [("id", "id"); ("v", "v")].

(** A mapping between columns of different names. *)
Definition scenario_rename_left : DataFrame := mkFrame ["id"] [[CNum 1]].

Definition scenario_rename_right : DataFrame := mkFrame ["ident"] [[CNum 1]].

Definition scenario_rename_mapping : Dict := [("id", "ident")].

(** A missing key on both sides. *)
Definition scenario_missing : DataFrame := mkFrame ["id"] [[CMissing]].

(** A non-key column [a] on both sides and a column [a_x] on one side. *)
Definition scenario_suffix_left : DataFrame :=
  mkFrame ["k"; "a"] [[CNum 1; CNum 2]].

Definition scenario_suffix_right : DataFrame :=
  mkFrame ["k"; "a"; "a_x"] [[CNum 1; CNum 2; CNum 3]].

(** A mapping that permutes the column names, as "Custom columns" allows:
    [a] is compared with [b], [b] with [c] and [c] with [a].  Under this
    mapping the one left row and the one right row differ in every pair of
    mapped columns. *)
Definition scenario_cycle_left : DataFrame :=
  mkFrame ["a"; "b"; "c"] [[CNum 1; CNum 2; CNum 3]].

Definition scenario_cycle_right : DataFrame :=
  mkFrame ["a"; "b"; "c"] [[CNum 2; CNum 3; CNum 1]].

Definition scenario_cycle_mapping : Dict := [("a", "b"); ("b", "c"); ("c", "a")].

(** ** The callers in [main] *)

(** [d[k] = v] on a [dict]: the value of an existing key is replaced where
    it stands, a new key goes to the end. *)
Fixpoint dict_set (d : Dict) (k v : string) : Dict :=
  match d with
  | [] => [(k, v)]
  | (k', v') :: d' =>
      if String.eqb k' k then (k, v) :: d' else (k', v') :: dict_set d' k v
  end.

(** "All columns": the mapping [{col: col for col in matching_cols}] that
    seeds the session, with [matching_cols] from [get_matching_columns] on
    [set(df_left.columns)] and [set(df_right.columns)].  The order in which
    Python walks a set is not fixed; the model takes the order of
    [elements], and nothing below depends on it. *)
Definition default_mapping (df_left df_right : DataFrame) : Dict :=
  match get_matching_columns (list_to_set (columns df_left))
          (list_to_set (columns df_right)) with
  | (matching_cols, _, _) =>
      List.map (fun col => (col, col)) (elements matching_cols)
  end.

(** "Custom columns": the loop
    [for i, left_col in enumerate(left_cols): column_mapping[left_col] = right_col]
    on the mapping kept in the session; [choices] pairs every selected left
    column with the right column picked in its select box. *)
Definition assign_mapping (column_mapping : Dict)
    (choices : list (string * string)) : Dict :=
  List.fold_left (fun d p => dict_set d (fst p) (snd p)) choices column_mapping.

(** [series == label], element-wise. *)
Definition series_eq (cells : list Cell) (label : string) : list bool :=
  List.map (fun c => bool_decide (c = CText label)) cells.

(** [sel == label] as a row mask.  On a sub-frame (two columns of one label)
    the comparison gives a frame of booleans and the selection by it cannot
    be aligned on the duplicate label; a frame returned by
    [compare_datasets] never has two columns [Dataset]. *)
Definition eq_label (sel : Selection) (label : string) : Result (list bool) :=
  match sel with
  | Series cells => Ok (series_eq cells label)
  | Frame _ => Raise (ValueError "cannot reindex on an axis with duplicate labels")
  end.

(** The filter of the result view: ["Show All"] passes the frame on, any
    other option keeps the rows whose [Dataset] cell is the option. *)
Definition filter_mismatched (mismatched : DataFrame) (filter_option : string)
  : Result DataFrame :=
  if String.eqb filter_option "Show All" then Ok mismatched
  else
    rbind (getitem mismatched "Dataset") (fun sel =>
    rbind (eq_label sel filter_option) (fun mask =>
    Ok (select_rows mismatched mask))).

#[global] Instance Indicator_eq_dec : EqDecision Indicator.
Proof. solve_decision. Defined.

(** A row of the labelled join, its class label last. *)
Definition labelled_cells (left_filename right_filename : string)
    (nl : nat) (idx : list (nat * nat)) (rnk : list nat) (j : Joined) : Row :=
  joined_body nl idx rnk j
  ++ [CText (class_label left_filename right_filename (indicator_of j))].

(** A left row, and a right row, that no row of the other side matches. *)
Definition unmatched_left (idx : list (nat * nat)) (rs : list Row) (l : Row)
  : bool :=
  negb (List.existsb (keys_match (List.map fst idx) (List.map snd idx) l) rs).

Definition unmatched_right (idx : list (nat * nat)) (ls : list Row) (r : Row)
  : bool :=
  negb (List.existsb
          (fun l => keys_match (List.map fst idx) (List.map snd idx) l r) ls).

(** The cells on which "the same cell" is also what [pd.merge] matches:
    text, a missing value, and an integer that [float64] holds exactly.
    Booleans are left out ([True] matches [1] once pandas compares the two
    columns as objects), and so are integers beyond [2^53] (against a
    [float64] column [2^53 + 1] matches [2^53]). *)
Definition plain_cell (c : Cell) : bool :=
  match c with
  | CText _ => true
  | CNum z => (Z.abs z <=? 2 ^ 53)%Z
  | CBool _ => false
  | CMissing => true
  end.

Definition plain_frame (df : DataFrame) : bool :=
  List.forallb (List.forallb plain_cell) (rows df).

(** ** Specifications of runs *)

(** [wp c Q s]: the run of [c] from [s] ends in a result and a state that
    satisfy [Q]. *)
Definition wp {A} (c : M A) (Q : Result A -> State -> Prop) (s : State) : Prop :=
  Q (fst (c s)) (snd (c s)).

(** ** Reasoning about runs *)

Lemma wp_ret {A} (a : A) Q s : Q (Ok a) s -> wp (ret a) Q s.
Proof. done. Qed.

Lemma wp_lift {A} (r : Result A) Q s : Q r s -> wp (lift r) Q s.
Proof. done. Qed.

Lemma wp_bind {A B} (c : M A) (k : A -> M B) Q s :
  wp c (fun r s' =>
          match r with
          | Ok a => wp (k a) Q s'
          | Raise e => Q (Raise e) s'
          end) s ->
  wp (bind c k) Q s.
Proof.
  unfold wp, bind. destruct (c s) as [[a|e] s']; simpl; done.
Qed.

Lemma wp_try_except {A} (body : M A) handler Q s :
  wp body (fun r s' =>
             match r with
             | Ok a => Q (Ok a) s'
             | Raise e => wp (handler e) Q s'
             end) s ->
  wp (try_except body handler) Q s.
Proof.
  unfold wp, try_except. destruct (body s) as [[a|e] s']; simpl; done.
Qed.

Lemma wp_mono {A} (c : M A) (Q Q' : Result A -> State -> Prop) s :
  wp c Q s -> (forall r s', Q r s' -> Q' r s') -> wp c Q' s.
Proof. unfold wp. auto. Qed.

Lemma wp_read r d Q s :
  frames s !! r = Some d -> Q (Ok d) s -> wp (read r) Q s.
Proof. unfold wp, read. intros ->. done. Qed.

Lemma wp_alloc d Q s :
  (forall r s',
      frames s !! r = None ->
      frames s ⊆ frames s' ->
      frames s' !! r = Some d ->
      ui s' = ui s ->
      Q (Ok r) s') ->
  wp (alloc d) Q s.
Proof.
  intros H. unfold wp, alloc. simpl.
  assert (Hfresh : frames s !! fresh (dom (frames s)) = None).
  { apply not_elem_of_dom. apply is_fresh. }
  apply H; simpl; auto.
  - by apply insert_subseteq.
  - by rewrite lookup_insert_eq.
Qed.

Lemma wp_write r d Q s :
  (forall s', frames s' = <[r := d]> (frames s) -> ui s' = ui s -> Q (Ok tt) s') ->
  wp (write r d) Q s.
Proof. intros H. unfold wp, write. simpl. by apply H. Qed.

Lemma wp_st_error prefix e Q s :
  (forall s', frames s' = frames s -> ui s' = ui s ++ [StError prefix e] ->
              Q (Ok tt) s') ->
  wp (st_error prefix e) Q s.
Proof. intros H. unfold wp, st_error. simpl. by apply H. Qed.

(** Rules for the pandas operations on objects. *)

Lemma wp_df_copy r d Q s :
  frames s !! r = Some d ->
  (forall r' s',
      frames s !! r' = None -> frames s ⊆ frames s' ->
      frames s' !! r' = Some d -> ui s' = ui s -> Q (Ok r') s') ->
  wp (df_copy r) Q s.
Proof.
  intros Hr H. apply wp_bind, (wp_read r d); [done|]. by apply wp_alloc.
Qed.

Lemma wp_df_rename r d dict Q s :
  frames s !! r = Some d ->
  (forall r' s',
      frames s !! r' = None -> frames s ⊆ frames s' ->
      frames s' !! r' = Some (rename d dict) -> ui s' = ui s -> Q (Ok r') s') ->
  wp (df_rename r dict) Q s.
Proof.
  intros Hr H. apply wp_bind, (wp_read r d); [done|]. by apply wp_alloc.
Qed.

Lemma wp_pd_merge l r a b on Q s :
  frames s !! l = Some a ->
  frames s !! r = Some b ->
  match merge a b on with
  | Ok m =>
      forall r' s',
        frames s !! r' = None -> frames s ⊆ frames s' ->
        frames s' !! r' = Some m -> ui s' = ui s -> Q (Ok r') s'
  | Raise e => Q (Raise e) s
  end ->
  wp (pd_merge l r on) Q s.
Proof.
  intros Hl Hr H.
  apply wp_bind, (wp_read l a); [done|].
  apply wp_bind, (wp_read r b); [done|].
  apply wp_bind, wp_lift.
  destruct (merge a b on); [by apply wp_alloc | done].
Qed.

Lemma wp_df_getitem r d label Q s :
  frames s !! r = Some d -> Q (getitem d label) s ->
  wp (df_getitem r label) Q s.
Proof.
  intros Hr H. apply wp_bind, (wp_read r d); [done|]. by apply wp_lift.
Qed.

Lemma wp_df_setitem r d label values Q s :
  frames s !! r = Some d ->
  (forall s',
      frames s' = <[r := setitem d label values]> (frames s) ->
      ui s' = ui s -> Q (Ok tt) s') ->
  wp (df_setitem r label values) Q s.
Proof.
  intros Hr H. apply wp_bind, (wp_read r d); [done|]. by apply wp_write.
Qed.

Lemma wp_df_select r d mask Q s :
  frames s !! r = Some d ->
  (forall r' s',
      frames s !! r' = None -> frames s ⊆ frames s' ->
      frames s' !! r' = Some (select_rows d mask) -> ui s' = ui s ->
      Q (Ok r') s') ->
  wp (df_select r mask) Q s.
Proof.
  intros Hr H. apply wp_bind, (wp_read r d); [done|]. by apply wp_alloc.
Qed.

Lemma wp_df_len r d Q s :
  frames s !! r = Some d -> Q (Ok (len d)) s -> wp (df_len r) Q s.
Proof.
  intros Hr H. apply wp_bind, (wp_read r d); [done|]. by apply wp_ret.
Qed.

Lemma wp_rows_not_labelled r d label Q s :
  frames s !! r = Some d ->
  match not_labelled d label with
  | Ok o =>
      forall r' s',
        frames s !! r' = None -> frames s ⊆ frames s' ->
        frames s' !! r' = Some o -> ui s' = ui s -> Q (Ok r') s'
  | Raise e => Q (Raise e) s
  end ->
  wp (rows_not_labelled r label) Q s.
Proof.
  intros Hr H. unfold rows_not_labelled, not_labelled in *.
  apply wp_bind, (wp_df_getitem r d); [done|].
  destruct (getitem d "Dataset") as [sel|e]; simpl in *; [|done].
  apply wp_bind, wp_lift.
  destruct (ne_label sel label) as [mask|e]; simpl in *; [|done].
  by apply (wp_df_select r d).
Qed.

(** The first half of the [try] block computes [labelled_join] into a new
    object and leaves every object of the caller as it was. *)
Lemma merge_and_label_run df1 df2 D1 D2 m ln rn s :
  frames s !! df1 = Some D1 ->
  frames s !! df2 = Some D2 ->
  wp (merge_and_label df1 df2 m ln rn)
     (fun r s' =>
        frames s ⊆ frames s' /\ ui s' = ui s /\
        match r with
        | Ok mr =>
            exists mg, labelled_join D1 D2 m ln rn = Ok mg /\
                       frames s' !! mr = Some mg
        | Raise e => labelled_join D1 D2 m ln rn = Raise e
        end) s.
Proof.
  intros H1 H2. unfold merge_and_label, labelled_join.
  apply wp_bind, (wp_df_copy df1 D1); [done|].
  intros c1 s1 Hc1 Hs1 Hc1' Hu1.
  apply wp_bind, (wp_df_copy df2 D2); [by eapply lookup_weaken|].
  intros c2 s2 Hc2 Hs2 Hc2' Hu2.
  apply wp_bind, (wp_df_rename c2 D2); [done|].
  intros c3 s3 Hc3 Hs3 Hc3' Hu3.
  assert (Hs03 : frames s ⊆ frames s3) by (do 2 (etrans; [|done]); done).
  apply wp_bind, (wp_pd_merge c1 c3 D1 (rename D2 m));
    [eapply lookup_weaken; [|exact Hs3]; by eapply lookup_weaken|done|].
  destruct (merge D1 (rename D2 m) (keys m)) as [mg|e]; simpl;
    [|split; [done|split; [congruence|done]]].
  intros c4 s4 Hc4 Hs4 Hc4' Hu4.
  apply wp_bind, (wp_df_rename c4 mg); [done|].
  intros c5 s5 Hc5 Hs5 Hc5' Hu5.
  assert (Hs05 : frames s ⊆ frames s5) by (do 2 (etrans; [|done]); done).
  apply wp_bind, (wp_df_getitem c5 (rename mg [("_merge", "Dataset")])); [done|].
  destruct (getitem _ "Dataset") as [sel|e]; simpl;
    [|split; [done|split; [congruence|done]]].
  apply wp_bind, wp_lift.
  destruct (map_dict sel _) as [lab|e]; simpl;
    [|split; [done|split; [congruence|done]]].
  apply wp_bind, (wp_df_setitem c5 (rename mg [("_merge", "Dataset")])); [done|].
  intros s6 Hs6 Hu6. apply wp_ret.
  split; [|split; [congruence|]].
  - rewrite Hs6. apply insert_subseteq_r; [|done].
    eapply lookup_weaken_None; [exact Hc5|].
    etrans; [exact Hs03|done].
  - eexists; split; [done|]. rewrite Hs6. by rewrite lookup_insert_eq.
Qed.

(** A run of [compare_datasets] always returns: the flag and a reference to
    a new frame, which are those of [outcome]; the objects of the caller
    are as before; the messages of [outcome] are appended to the log. *)
Lemma compare_datasets_wp df1 df2 D1 D2 m ln rn s :
  frames s !! df1 = Some D1 ->
  frames s !! df2 = Some D2 ->
  wp (compare_datasets df1 df2 m ln rn)
     (fun r s' =>
        exists ref,
          r = Ok (fst (fst (outcome D1 D2 m ln rn)), ref) /\
          frames s' !! ref = Some (snd (fst (outcome D1 D2 m ln rn))) /\
          frames s !! ref = None /\
          frames s ⊆ frames s' /\
          ui s' = ui s ++ snd (outcome D1 D2 m ln rn)) s.
Proof.
  intros H1 H2. unfold compare_datasets, outcome, try_block.
  assert (Hfail : forall e s1,
    frames s ⊆ frames s1 -> ui s1 = ui s ->
    wp (bind (st_error "Error comparing datasets: " e)
          (fun _ => bind (alloc empty_frame) (fun empty => ret (false, empty))))
       (fun r s' =>
          exists ref,
            r = Ok (false, ref) /\
            frames s' !! ref = Some empty_frame /\
            frames s !! ref = None /\
            frames s ⊆ frames s' /\
            ui s' = ui s ++ [StError "Error comparing datasets: " e]) s1).
  { intros e s1 Hs1 Hu1. apply wp_bind, wp_st_error. intros s2 Hs2 Hu2.
    apply wp_bind, wp_alloc. intros r s3 Hr Hs3 Hr' Hu3. apply wp_ret.
    assert (Hs02 : frames s ⊆ frames s2) by by rewrite Hs2.
    exists r. split; [done|]. split; [done|].
    split; [by eapply lookup_weaken_None|]. split.
    - by etrans.
    - congruence. }
  apply wp_try_except, wp_bind.
  eapply wp_mono; [by apply (merge_and_label_run df1 df2 D1 D2)|].
  intros [mr|e] s1 (Hs1 & Hu1 & Hres); simpl; cycle 1.
  { rewrite Hres. simpl. by apply Hfail. }
  destruct Hres as (mg & -> & Hmr). simpl.
  apply wp_bind, (wp_rows_not_labelled mr mg); [done|].
  destruct (not_labelled mg (in_both ln rn)) as [o|e] eqn:Hnl; simpl;
    [|by apply Hfail].
  intros c1 s2 Hc1 Hs2 Hc1' Hu2.
  apply wp_bind, (wp_df_len c1 o); [done|].
  assert (Hs02 : frames s ⊆ frames s2) by (etrans; done).
  apply wp_bind.
  apply (wp_mono _ (fun r s' =>
           r = Ok (Nat.eqb (len o) 0 && Nat.eqb (len D1) (len D2)) /\ s' = s2)).
  { destruct (Nat.eqb (len o) 0); simpl; [|by apply wp_ret].
    apply wp_bind, (wp_df_len df1 D1); [by eapply lookup_weaken|].
    apply wp_bind, (wp_df_len df2 D2); [by eapply lookup_weaken|].
    by apply wp_ret. }
  intros r s' [-> ->].
  apply wp_bind, (wp_rows_not_labelled mr mg); [by eapply lookup_weaken|].
  rewrite Hnl.
  intros c2 s3 Hc2 Hs3 Hc2' Hu3. apply wp_ret.
  exists c2. split; [done|]. split; [done|].
  split; [by eapply lookup_weaken_None|]. split.
  - etrans; [exact Hs02|done].
  - rewrite app_nil_r. congruence.
Qed.

Lemma compare_datasets_run df1 df2 D1 D2 m ln rn s :
  frames s !! df1 = Some D1 ->
  frames s !! df2 = Some D2 ->
  exists ref s',
    compare_datasets df1 df2 m ln rn s
    = (Ok (fst (fst (outcome D1 D2 m ln rn)), ref), s') /\
    frames s' !! ref = Some (snd (fst (outcome D1 D2 m ln rn))) /\
    frames s ⊆ frames s' /\
    ui s' = ui s ++ snd (outcome D1 D2 m ln rn) /\
    frames s !! ref = None.
Proof.
  intros H1 H2.
  pose proof (compare_datasets_wp df1 df2 D1 D2 m ln rn s H1 H2) as H.
  unfold wp in H. destruct (compare_datasets df1 df2 m ln rn s) as [r s'].
  simpl in H. destruct H as (ref & -> & H). exists ref, s'. tauto.
Qed.

(** ** The frame values of a run *)

Lemma In_positions k cols i :
  In i (positions k cols) <-> cols !! i = Some k.
Proof.
  unfold positions. rewrite filter_In, in_seq, bool_decide_eq_true.
  split; [tauto|]. intros H. split; [|done].
  apply lookup_lt_Some in H. lia.
Qed.

Lemma positions_single k cols i j :
  positions k cols = [i] -> cols !! j = Some k -> j = i.
Proof.
  intros Hp Hj. apply In_positions in Hj. rewrite Hp in Hj.
  destruct Hj as [->|[]]. done.
Qed.

Lemma class_label_in_both ln rn i :
  class_label ln rn i = in_both ln rn <-> i = both.
Proof.
  destruct i; unfold class_label, only_in, in_both; cbn;
    split; intros H; try done; discriminate H.
Qed.

Lemma map_cell_indicator ln rn i :
  map_cell [("left_only", only_in ln); ("right_only", only_in rn);
            ("both", in_both ln rn)] (CText (indicator_name i))
  = CText (class_label ln rn i).
Proof. by destruct i. Qed.

Lemma joined_body_length nl idx rnk j :
  length (joined_body nl idx rnk j) = nl + length rnk.
Proof.
  destruct j; simpl; rewrite length_app, !length_map, length_seq; done.
Qed.

Lemma cell_app_last (body : Row) c : cell (body ++ [c]) (length body) = c.
Proof. unfold cell. rewrite app_nth2, Nat.sub_diag; [done|lia]. Qed.

Lemma set_cell_app_last (body : Row) c c' :
  set_cell (body ++ [c]) (length body) c' = body ++ [c'].
Proof.
  unfold set_cell. rewrite length_app. simpl.
  replace (S (length body) - (length body + 1)) with 0 by lia.
  simpl. rewrite app_nil_r.
  rewrite insert_app_r_alt, Nat.sub_diag; [done|lia].
Qed.

Lemma map_combine_map {A B C} (g : A * B -> C) (f : A -> B) (l : list A) :
  List.map g (List.combine l (List.map f l)) = List.map (fun x => g (x, f x)) l.
Proof. induction l; simpl; congruence. Qed.

Lemma filter_combine_map {A} (f : A -> bool) (l : list A) :
  List.map fst (List.filter snd (List.combine l (List.map f l))) = List.filter f l.
Proof.
  induction l as [|x l IH]; simpl; [done|].
  destruct (f x); simpl; congruence.
Qed.

Lemma filter_map_comm {A B} (f : A -> B) (p : B -> bool) (l : list A) :
  List.filter p (List.map f l) = List.map f (List.filter (fun x => p (f x)) l).
Proof.
  induction l as [|x l IH]; simpl; [done|].
  destruct (p (f x)); simpl; congruence.
Qed.

(** What a successful merge is made of. *)
Lemma merge_inv a b on mg :
  merge a b on = Ok mg ->
  exists idx,
    get_merge_keys (columns a) (columns b) on = Ok idx /\
    on <> [] /\
    indicator_pre_merge (columns a) (nonkey_labels (columns b) on) = Ok tt /\
    columns mg
    = List.map (add_suffix (to_rename (columns a) (nonkey_labels (columns b) on)) "_x")
        (columns a)
      ++ List.map (add_suffix (to_rename (columns a) (nonkey_labels (columns b) on)) "_y")
           (nonkey_labels (columns b) on)
      ++ ["_merge"] /\
    rows mg = List.map (joined_cells (length (columns a)) idx
                          (nonkey_positions (columns b) on))
                (full_outer_join (List.map fst idx) (List.map snd idx)
                   (rows a) (rows b)).
Proof.
  unfold merge. intros H.
  destruct (get_merge_keys _ _ on) as [idx|e]; simpl in H; [|done].
  destruct (indicator_pre_merge _ _) as [[]|e]; simpl in H; [|done].
  destruct on as [|k on]; [done|].
  unfold items_overlap_with_suffix in H.
  destruct (suffix_dups _ _ ++ suffix_dups _ _); simpl in H; [|done].
  injection H as <-. simpl. by exists idx.
Qed.

(** A merge whose keys are found, with free indicator names and at least
    one key, is computed unless a suffix creates a duplicate label. *)
Lemma merge_ok a b on idx :
  get_merge_keys (columns a) (columns b) on = Ok idx ->
  on <> [] ->
  indicator_pre_merge (columns a) (nonkey_labels (columns b) on) = Ok tt ->
  (forall dups, merge a b on <> Raise (MergeError dups)) ->
  exists mg, merge a b on = Ok mg.
Proof.
  unfold merge. intros -> Hon -> Hdups. simpl in *.
  destruct on as [|k on]; [done|].
  unfold items_overlap_with_suffix in *.
  destruct (suffix_dups _ _ ++ suffix_dups _ _) as [|d dups]; simpl in *;
    [by eexists|].
  by destruct (Hdups (d :: dups)).
Qed.

(** The rows of the labelled join: one row per row of the full outer join,
    its class label in the column [Dataset], which is the last column. *)
Lemma labelled_join_inv L R m ln rn mg :
  labelled_join L R m ln rn = Ok mg ->
  exists idx rnk,
    get_merge_keys (columns L) (columns (rename R m)) (keys m) = Ok idx /\
    positions "Dataset" (columns mg) = [length (columns L) + length rnk] /\
    rows mg = List.map
                (fun j => joined_body (length (columns L)) idx rnk j
                          ++ [CText (class_label ln rn (indicator_of j))])
                (full_outer_join (List.map fst idx) (List.map snd idx)
                   (rows L) (rows R)).
Proof.
  unfold labelled_join. intros H.
  destruct (merge L (rename R m) (keys m)) as [mg0|e] eqn:Hm; simpl in H; [|done].
  apply merge_inv in Hm as (idx & Hk & _ & _ & Hc & Hr).
  set (rnk := nonkey_positions (columns (rename R m)) (keys m)) in *.
  unfold getitem in H. simpl in H.
  set (cols := List.map (rename_label [("_merge", "Dataset")]) (columns mg0)) in *.
  set (n := length (columns L) + length rnk).
  assert (Hn : cols !! n = Some "Dataset").
  { unfold cols. rewrite Hc, app_assoc, map_app. simpl.
    rewrite lookup_app_r;
      rewrite length_map, length_app, !length_map; unfold nonkey_labels;
      rewrite ?length_map; fold rnk; [|done].
    by rewrite Nat.sub_diag. }
  destruct (positions "Dataset" cols) as [|i [|i' ps]] eqn:Hp; simpl in H;
    [done| |done].
  assert (i = n) as -> by (symmetry; by eapply positions_single).
  injection H as <-.
  exists idx, rnk.
  split; [done|]. unfold setitem. simpl. fold cols. rewrite Hp. simpl.
  split; [done|].
  rewrite Hr. change (rows (rename R m)) with (rows R).
  rewrite (map_map (fun r : Row => cell r n)), map_combine_map, map_map. simpl.
  apply map_ext. intros j. unfold joined_cells. subst n.
  rewrite <- (joined_body_length (length (columns L)) idx rnk j).
  rewrite cell_app_last, set_cell_app_last. by rewrite map_cell_indicator.
Qed.

Lemma not_labelled_spec mg n label :
  positions "Dataset" (columns mg) = [n] ->
  not_labelled mg label
  = Ok (mkFrame (columns mg) (List.filter (differs_from label mg) (rows mg))).
Proof.
  intros Hp. unfold not_labelled, getitem. rewrite Hp. simpl.
  unfold select_rows, series_ne. rewrite map_map, filter_combine_map.
  do 2 f_equal. apply filter_ext. intros r.
  unfold differs_from, dataset_cell. by rewrite Hp.
Qed.

Lemma try_block_ok L R m ln rn mg :
  labelled_join L R m ln rn = Ok mg ->
  try_block L R m ln rn
  = Ok (Nat.eqb (length (List.filter (differs_from (in_both ln rn) mg) (rows mg))) 0
        && Nat.eqb (len L) (len R),
        mkFrame (columns mg)
          (List.filter (differs_from (in_both ln rn) mg) (rows mg))).
Proof.
  intros H. unfold try_block. rewrite H. simpl.
  destruct (labelled_join_inv _ _ _ _ _ _ H) as (idx & rnk & _ & Hp & _).
  by rewrite (not_labelled_spec mg _ _ Hp).
Qed.

Lemma try_block_raise L R m ln rn e :
  labelled_join L R m ln rn = Raise e -> try_block L R m ln rn = Raise e.
Proof. intros H. unfold try_block. by rewrite H. Qed.

Lemma outcome_ok L R m ln rn mg :
  labelled_join L R m ln rn = Ok mg ->
  outcome L R m ln rn
  = (Nat.eqb (length (List.filter (differs_from (in_both ln rn) mg) (rows mg))) 0
     && Nat.eqb (len L) (len R),
     mkFrame (columns mg)
       (List.filter (differs_from (in_both ln rn) mg) (rows mg)),
     []).
Proof. intros H. unfold outcome. by rewrite (try_block_ok _ _ _ _ _ mg). Qed.

Lemma outcome_raise L R m ln rn e :
  labelled_join L R m ln rn = Raise e ->
  outcome L R m ln rn
  = (false, empty_frame, [StError "Error comparing datasets: " e]).
Proof. intros H. unfold outcome. by rewrite (try_block_raise _ _ _ _ _ e). Qed.

(** Every row of the labelled join carries the label of its indicator. *)
Lemma labelled_join_class L R m ln rn mg r :
  labelled_join L R m ln rn = Ok mg ->
  In r (rows mg) ->
  exists i, dataset_cell mg r = CText (class_label ln rn i).
Proof.
  intros H Hr.
  destruct (labelled_join_inv _ _ _ _ _ _ H) as (idx & rnk & _ & Hp & Hrows).
  rewrite Hrows in Hr. apply in_map_iff in Hr as (j & <- & _).
  exists (indicator_of j). unfold dataset_cell. rewrite Hp.
  rewrite <- (joined_body_length (length (columns L)) idx rnk j).
  apply cell_app_last.
Qed.

Lemma differs_from_false label mg r :
  differs_from label mg r = false <-> dataset_cell mg r = CText label.
Proof.
  unfold differs_from. rewrite negb_false_iff. apply bool_decide_eq_true.
Qed.

Lemma filter_nil_iff {A} (p : A -> bool) (l : list A) :
  List.filter p l = [] <-> List.Forall (fun x => p x = false) l.
Proof.
  induction l as [|x l IH]; simpl.
  - split; [constructor|done].
  - destruct (p x) eqn:Hx.
    + split; [done|]. intros H. inversion H. congruence.
    + rewrite IH. split; [by constructor|]. intros H. by inversion H.
Qed.

Lemma length_zero_eqb {A} (l : list A) : Nat.eqb (length l) 0 = true <-> l = [].
Proof. destruct l; simpl; split; done. Qed.

(** ** The [identical] flag *)

(** The test of lines 72 to 76, relative to the frame [merged] the program
    has built: the flag is true if and only if the join was computed, every
    row of the labelled join carries the in-both label, and the two frames
    have the same number of rows.  Which join that is depends on the
    renaming of the right frame, see below. *)
Lemma flag_reads_the_computed_join s df1 df2 D1 D2 m ln rn :
  frames s !! df1 = Some D1 ->
  frames s !! df2 = Some D2 ->
  exists flag ref s',
    compare_datasets df1 df2 m ln rn s = (Ok (flag, ref), s') /\
    (flag = true <->
     exists merged,
       labelled_join D1 D2 m ln rn = Ok merged /\
       List.Forall (fun r => dataset_cell merged r = CText (in_both ln rn))
         (rows merged) /\
       len D1 = len D2).
Proof.
  intros H1 H2.
  destruct (compare_datasets_run df1 df2 D1 D2 m ln rn s H1 H2)
    as (ref & s' & Hrun & _).
  eexists _, ref, s'. split; [exact Hrun|].
  destruct (labelled_join D1 D2 m ln rn) as [mg|e] eqn:Hj.
  - rewrite (outcome_ok _ _ _ _ _ mg Hj). simpl.
    rewrite andb_true_iff, length_zero_eqb, filter_nil_iff, Nat.eqb_eq.
    split.
    + intros [Hall Hlen]. exists mg. split; [done|]. split; [|done].
      eapply Forall_impl; [exact Hall|].
      intros r. apply differs_from_false.
    + intros (mg' & Hmg & Hall & Hlen). injection Hmg as <-.
      split; [|done]. eapply Forall_impl; [exact Hall|].
      intros r. apply differs_from_false.
  - rewrite (outcome_raise _ _ _ _ _ e Hj). simpl.
    split; [done|]. intros (mg & Hmg & _). done.
Qed.

(** C1, at two failing inputs.  Both mappings are valid: every key is a
    column of the left frame and every value a column of the right frame.
    The join the claim speaks of gives the mapped columns of the right frame
    their left-side names (the mapping read from value to key) and joins on
    the keys; the program renames with the mapping as it stands (key to
    value), the defect of C2, and its flag follows another join or none.

    For [{id: ident}] on two one-row frames with the same value, the claim's
    join has one row, in both, and the row counts agree: the claim gives
    true.  The program's merge raises [KeyError], and the flag is false.

    For [{a: b, b: c, c: a}] on the rows [1, 2, 3] and [2, 3, 1], the
    claim's join has one row only on the left and one only on the right:
    the claim gives false.  The program's renaming turns the right frame
    into the left one, every row of its join is in both, and the flag is
    true. *)
Theorem identical_flag_follows_the_wrong_renaming :
  (List.Forall (fun k => In k (columns scenario_rename_left))
     (keys scenario_rename_mapping) /\
   List.Forall (fun v => In v (columns scenario_rename_right))
     (List.map snd scenario_rename_mapping) /\
   merge scenario_rename_left
     (rename scenario_rename_right (invert scenario_rename_mapping))
     (keys scenario_rename_mapping)
   = Ok (mkFrame ["id"; "_merge"] [[CNum 1; CText "both"]]) /\
   len scenario_rename_left = len scenario_rename_right /\
   compare scenario_rename_left scenario_rename_right scenario_rename_mapping
     "left" "right" = Some (false, empty_frame)) /\
  (List.Forall (fun k => In k (columns scenario_cycle_left))
     (keys scenario_cycle_mapping) /\
   List.Forall (fun v => In v (columns scenario_cycle_right))
     (List.map snd scenario_cycle_mapping) /\
   merge scenario_cycle_left
     (rename scenario_cycle_right (invert scenario_cycle_mapping))
     (keys scenario_cycle_mapping)
   = Ok (mkFrame ["a"; "b"; "c"; "_merge"]
           [[CNum 1; CNum 2; CNum 3; CText "left_only"];
            [CNum 3; CNum 1; CNum 2; CText "right_only"]]) /\
   labelled_join scenario_cycle_left scenario_cycle_right
     scenario_cycle_mapping "left" "right"
   = Ok (mkFrame ["a"; "b"; "c"; "Dataset"]
           [[CNum 1; CNum 2; CNum 3; CText "In both left and right"]]) /\
   compare scenario_cycle_left scenario_cycle_right scenario_cycle_mapping
     "left" "right" = Some (true, mkFrame ["a"; "b"; "c"; "Dataset"] [])).
Proof.
  assert (Hin : forall (cols l : list string),
             List.forallb (fun x => mem x cols) l = true ->
             List.Forall (fun x => In x cols) l).
  { intros cols l H. apply List.Forall_forall. intros x Hx.
    rewrite List.forallb_forall in H. specialize (H x Hx).
    unfold mem in H. apply bool_decide_eq_true in H.
    by apply list_elem_of_In. }
  split.
  - split; [apply Hin; vm_compute; reflexivity|].
    split; [apply Hin; vm_compute; reflexivity|].
    repeat split; vm_compute; reflexivity.
  - split; [apply Hin; vm_compute; reflexivity|].
    split; [apply Hin; vm_compute; reflexivity|].
    repeat split; vm_compute; reflexivity.
Qed.

(** ** The [differences] frame *)

Lemma dataset_cell_columns df df' r :
  columns df = columns df' -> dataset_cell df r = dataset_cell df' r.
Proof. unfold dataset_cell. by intros ->. Qed.



(** C10.  When the join is computed, every joined row is labelled in-both
    and the two frames differ in their number of rows, the flag is false and
    the returned frame has no row. *)
Theorem not_identical_with_empty_differences s df1 df2 D1 D2 m ln rn merged :
  frames s !! df1 = Some D1 ->
  frames s !! df2 = Some D2 ->
  labelled_join D1 D2 m ln rn = Ok merged ->
  List.Forall (fun r => dataset_cell merged r = CText (in_both ln rn))
    (rows merged) ->
  len D1 <> len D2 ->
  exists ref s' diff,
    compare_datasets df1 df2 m ln rn s = (Ok (false, ref), s') /\
    frames s' !! ref = Some diff /\
    rows diff = [].
Proof.
  intros H1 H2 Hj Hall Hlen.
  destruct (compare_datasets_run df1 df2 D1 D2 m ln rn s H1 H2)
    as (ref & s' & Hrun & Href & _).
  rewrite (outcome_ok _ _ _ _ _ merged Hj) in Hrun, Href. simpl in *.
  assert (Hnil : List.filter (differs_from (in_both ln rn) merged) (rows merged) = []).
  { apply filter_nil_iff. eapply Forall_impl; [exact Hall|].
    intros r. apply differs_from_false. }
  rewrite Hnil in Hrun, Href. simpl in Hrun.
  apply Nat.eqb_neq in Hlen. rewrite Hlen in Hrun.
  by eexists ref, s', _.
Qed.

(** C10 on Scenario 3. *)
Lemma not_identical_with_empty_differences_witness :
  exists ref s' diff,
    compare_datasets 0 1 scenario_mapping "left" "right"
      (initial_state scenario3_left scenario3_right)
    = (Ok (false, ref), s') /\
    frames s' !! ref = Some diff /\
    rows diff = [].
Proof.
  eapply (not_identical_with_empty_differences
            (initial_state scenario3_left scenario3_right) 0 1
            scenario3_left scenario3_right scenario_mapping "left" "right").
  - reflexivity.
  - reflexivity.
  - vm_compute. reflexivity.
  - repeat constructor.
  - vm_compute. lia.
Defined.

(** ** Effects on the caller's objects *)

(** C7.  After the call every frame object the caller held, the two inputs
    among them, has the value it had before: the copies, the merge result,
    the frame updated in place and the returned frame are all new
    objects. *)
Theorem inputs_unchanged s df1 df2 D1 D2 m ln rn :
  frames s !! df1 = Some D1 ->
  frames s !! df2 = Some D2 ->
  exists flag ref s',
    compare_datasets df1 df2 m ln rn s = (Ok (flag, ref), s') /\
    frames s' !! df1 = Some D1 /\
    frames s' !! df2 = Some D2 /\
    (forall r d, frames s !! r = Some d -> frames s' !! r = Some d) /\
    frames s !! ref = None.
Proof.
  intros H1 H2.
  destruct (compare_datasets_run df1 df2 D1 D2 m ln rn s H1 H2)
    as (ref & s' & Hrun & Href & Hsub & _ & Hfresh).
  exists (fst (fst (outcome D1 D2 m ln rn))), ref, s'.
  split; [exact Hrun|].
  split; [by eapply lookup_weaken|].
  split; [by eapply lookup_weaken|].
  split; [intros r d Hr; by eapply lookup_weaken|done].
Qed.

(** C7 on Scenario 3. *)
Lemma inputs_unchanged_witness :
  exists flag ref s',
    compare_datasets 0 1 [("id", "id")] "left" "right"
      (initial_state scenario3_left scenario3_right)
    = (Ok (flag, ref), s') /\
    frames s' !! 0 = Some scenario3_left /\
    frames s' !! 1 = Some scenario3_right.
Proof.
  destruct (inputs_unchanged (initial_state scenario3_left scenario3_right) 0 1
              scenario3_left scenario3_right [("id", "id")] "left" "right"
              eq_refl eq_refl)
    as (flag & ref & s' & Hrun & Hl & Hr & _).
  by exists flag, ref, s'.
Defined.

(** ** Determinism *)

(** C8.  The flag and the value of the returned frame depend on the values
    of the two frames, the mapping and the file names only: two calls from
    any two states that hold the same frame values return the same flag and
    equal frames, and so does a second call made right after the first, in
    the state the first call left. *)
Theorem same_inputs_same_result s t df1 df2 df1' df2' D1 D2 m ln rn :
  frames s !! df1 = Some D1 ->
  frames s !! df2 = Some D2 ->
  frames t !! df1' = Some D1 ->
  frames t !! df2' = Some D2 ->
  (exists flag diff ref s' ref' t',
      compare_datasets df1 df2 m ln rn s = (Ok (flag, ref), s') /\
      frames s' !! ref = Some diff /\
      compare_datasets df1' df2' m ln rn t = (Ok (flag, ref'), t') /\
      frames t' !! ref' = Some diff) /\
  (exists flag diff ref1 s1 ref2 s2,
      compare_datasets df1 df2 m ln rn s = (Ok (flag, ref1), s1) /\
      compare_datasets df1 df2 m ln rn s1 = (Ok (flag, ref2), s2) /\
      frames s1 !! ref1 = Some diff /\
      frames s2 !! ref2 = Some diff /\
      frames s2 !! ref1 = Some diff).
Proof.
  intros H1 H2 H1' H2'.
  destruct (compare_datasets_run df1 df2 D1 D2 m ln rn s H1 H2)
    as (ref & s' & Hrun & Href & Hsub & _).
  split.
  - destruct (compare_datasets_run df1' df2' D1 D2 m ln rn t H1' H2')
      as (ref' & t' & Hrun' & Href' & _).
    by eexists _, _, ref, s', ref', t'.
  - assert (Hs1 : frames s' !! df1 = Some D1) by by eapply lookup_weaken.
    assert (Hs2 : frames s' !! df2 = Some D2) by by eapply lookup_weaken.
    destruct (compare_datasets_run df1 df2 D1 D2 m ln rn s' Hs1 Hs2)
      as (ref2 & s2 & Hrun2 & Href2 & Hsub2 & _).
    eexists _, _, ref, s', ref2, s2.
    split; [exact Hrun|]. split; [exact Hrun2|]. split; [exact Href|].
    split; [exact Href2|]. by eapply lookup_weaken.
Qed.

(** C8 on Scenario 3, the second call made after the first. *)
Lemma same_inputs_same_result_witness :
  exists flag diff ref1 s1 ref2 s2,
    compare_datasets 0 1 scenario_mapping "left" "right"
      (initial_state scenario3_left scenario3_right) = (Ok (flag, ref1), s1) /\
    compare_datasets 0 1 scenario_mapping "left" "right" s1
    = (Ok (flag, ref2), s2) /\
    frames s1 !! ref1 = Some diff /\
    frames s2 !! ref2 = Some diff /\
    frames s2 !! ref1 = Some diff.
Proof.
  apply (same_inputs_same_result
           (initial_state scenario3_left scenario3_right)
           (initial_state scenario3_left scenario3_right) 0 1 0 1
           scenario3_left scenario3_right scenario_mapping "left" "right");
    reflexivity.
Defined.

(** ** The column matcher *)

(** C6.  [get_matching_columns] returns the intersection and the two
    differences of its arguments; the three sets are pairwise disjoint and
    their union is the union of the arguments. *)
Theorem matcher_partition (A B : gset string) :
  get_matching_columns A B = (A ∩ B, A ∖ B, B ∖ A) /\
  match get_matching_columns A B with
  | (matching, leftOnly, rightOnly) =>
      matching ## leftOnly /\
      matching ## rightOnly /\
      leftOnly ## rightOnly /\
      matching ∪ leftOnly ∪ rightOnly = A ∪ B
  end.
Proof.
  unfold get_matching_columns. split; [done|].
  split; [set_solver|]. split; [set_solver|]. split; [set_solver|].
  apply set_eq. intros x.
  destruct (decide (x ∈ A)), (decide (x ∈ B)); set_solver.
Qed.

(** ** Join keys and the mapping *)

Lemma label_position_ok cols k i :
  label_position cols k = Ok i ->
  cols !! i = Some k /\ forall j, cols !! j = Some k -> j = i.
Proof.
  unfold label_position. intros H.
  destruct (positions k cols) as [|i0 [|i1 ps]] eqn:Hp; [done| |done].
  injection H as ->. split.
  - apply In_positions. rewrite Hp. by left.
  - intros j Hj. by eapply positions_single.
Qed.

Lemma label_position_absent cols k :
  ~ In k cols -> label_position cols k = Raise (KeyError k).
Proof.
  intros Hk. unfold label_position.
  destruct (positions k cols) as [|i ps] eqn:Hp; [done|].
  exfalso. apply Hk.
  assert (Hi : In i (positions k cols)) by (rewrite Hp; by left).
  apply In_positions in Hi. apply list_elem_of_In.
  by eapply list_elem_of_lookup_2.
Qed.

Lemma get_merge_keys_inv lcols rcols on idx :
  get_merge_keys lcols rcols on = Ok idx ->
  List.Forall2
    (fun k p => label_position lcols k = Ok (fst p) /\
                label_position rcols k = Ok (snd p)) on idx.
Proof.
  revert idx. induction on as [|k on IH]; simpl; intros idx H.
  - injection H as <-. constructor.
  - destruct (label_position rcols k) as [ri|e] eqn:Hr; simpl in H; [|done].
    destruct (label_position lcols k) as [li|e] eqn:Hl; simpl in H; [|done].
    destruct (get_merge_keys lcols rcols on) as [rest|e]; simpl in H; [|done].
    injection H as <-. constructor; [done|]. by apply IH.
Qed.

Lemma get_merge_keys_raise lcols rcols on k :
  In k on ->
  (forall i, label_position lcols k <> Ok i) \/
  (forall i, label_position rcols k <> Ok i) ->
  exists e, get_merge_keys lcols rcols on = Raise e.
Proof.
  intros Hk Hbad. induction on as [|k' on IH]; [done|]. simpl.
  destruct (label_position rcols k') as [ri|e] eqn:Hr; simpl; [|by eexists].
  destruct (label_position lcols k') as [li|e] eqn:Hl; simpl; [|by eexists].
  destruct Hk as [->|Hk].
  - destruct Hbad as [Hbad|Hbad]; [by destruct (Hbad li)|by destruct (Hbad ri)].
  - destruct (IH Hk) as [e ->]. by eexists.
Qed.

Lemma dict_get_Some d k v : dict_get d k = Some v -> In (k, v) d.
Proof.
  unfold dict_get. destruct (List.find _ d) as [[k' v']|] eqn:Hf; [|done].
  intros [= <-]. apply find_some in Hf as [Hin Heq]. simpl in Heq.
  apply String.eqb_eq in Heq as ->. done.
Qed.

Lemma dict_get_None d k : dict_get d k = None -> ~ In k (keys d).
Proof.
  unfold dict_get, keys.
  destruct (List.find _ d) as [p|] eqn:Hf; [done|]. intros _ Hin.
  apply in_map_iff in Hin as ([k' v] & <- & Hin).
  pose proof (find_none _ _ Hf _ Hin) as Hno. simpl in Hno.
  by rewrite String.eqb_refl in Hno.
Qed.

Lemma dict_get_In d k v :
  List.NoDup (keys d) -> In (k, v) d -> dict_get d k = Some v.
Proof.
  unfold dict_get, keys. induction d as [|[k' v'] d IH]; simpl; [done|].
  intros Hnd Hin. apply List.NoDup_cons_iff in Hnd as [Hk' Hnd].
  destruct (String.eqb_spec k' k) as [->|Hne].
  - destruct Hin as [[= ->]|Hin]; [done|].
    exfalso. apply Hk'. apply in_map_iff. by exists (k, v).
  - destruct Hin as [[= -> ->]|Hin]; [done|]. by apply IH.
Qed.

(** A label of the renamed frame that is a key of the mapping comes from a
    column whose label is itself a key of the mapping. *)
Lemma renamed_key_origin d cols j k :
  In k (keys d) ->
  List.map (rename_label d) cols !! j = Some k ->
  exists c, cols !! j = Some c /\ dict_get d c = Some k.
Proof.
  intros Hk Hj. rewrite list_lookup_fmap in Hj.
  destruct (cols !! j) as [c|] eqn:Hc; [|done]. simpl in Hj.
  injection Hj as Hren. exists c. split; [done|].
  unfold rename_label in Hren.
  destruct (dict_get d c) as [k'|] eqn:Hg; [congruence|].
  subst c. by apply dict_get_None in Hg.
Qed.

Lemma Forall2_choose {A B} (P : A -> B -> Prop) (l : list A) :
  (forall a, In a l -> exists b, P a b) -> exists l', List.Forall2 P l l'.
Proof.
  induction l as [|a l IH]; intros H.
  - exists []. constructor.
  - destruct (H a) as [b Hb]; [by left|].
    destruct IH as [l' Hl']; [intros a' Ha'; apply H; by right|].
    exists (b :: l'). by constructor.
Qed.

Lemma Forall2_NoDup {A B} (P : A -> B -> Prop) (l : list A) (l' : list B) :
  List.Forall2 P l l' ->
  (forall a a' b, P a b -> P a' b -> a = a') ->
  List.NoDup l -> List.NoDup l'.
Proof.
  intros HF Hfun. induction HF as [|a b l l' Hab HF IH]; intros Hnd.
  - constructor.
  - apply List.NoDup_cons_iff in Hnd as [Ha Hnd].
    apply List.NoDup_cons_iff. split; [|by apply IH].
    intros Hb. apply Ha.
    clear IH Hnd Ha. induction HF as [|a0 b0 l l' Hab0 HF IH]; [done|].
    destruct Hb as [->|Hb].
    + left. by eapply Hfun.
    + right. by apply IH.
Qed.

Lemma Forall2_In_r {A B} (P : A -> B -> Prop) (l : list A) (l' : list B) b :
  List.Forall2 P l l' -> In b l' -> exists a, In a l /\ P a b.
Proof.
  induction 1 as [|a0 b0 l l' Hab HF IH]; [done|].
  intros [->|Hb]; [exists a0; split; [by left|done]|].
  destruct (IH Hb) as (a & Ha & HP). exists a. split; [by right|done].
Qed.

Lemma Forall2_In_l {A B} (P : A -> B -> Prop) (l : list A) (l' : list B) a :
  List.Forall2 P l l' -> In a l -> exists b, In b l' /\ P a b.
Proof.
  induction 1 as [|a0 b0 l l' Hab HF IH]; [done|].
  intros [->|Ha]; [exists b0; split; [by left|done]|].
  destruct (IH Ha) as (b & Hb & HP). exists b. split; [by right|done].
Qed.

(** When the keys of a mapping are all found, once each, among the labels of
    the renamed right frame, the mapping permutes its keys: its values are
    its keys, and all of them are labels of the right frame. *)
Lemma renamed_keys_permutation d lcols rcols idx :
  List.NoDup (keys d) ->
  get_merge_keys lcols (List.map (rename_label d) rcols) (keys d) = Ok idx ->
  (forall k, In k (keys d) -> In k lcols) /\
  (forall k, In k (keys d) -> In k (List.map snd d)) /\
  (forall v, In v (List.map snd d) -> In v (keys d) /\ In v rcols).
Proof.
  intros Hnd Hk. apply get_merge_keys_inv in Hk.
  assert (HA : forall k, In k (keys d) ->
             exists c, In c rcols /\ dict_get d c = Some k).
  { intros k Hin.
    destruct (Forall2_In_l _ _ _ k Hk Hin) as (p & _ & _ & Hr).
    apply label_position_ok in Hr as [Hr _].
    destruct (renamed_key_origin d rcols (snd p) k Hin Hr) as (c & Hc & Hg).
    exists c. split; [|done]. apply list_elem_of_In.
    by eapply list_elem_of_lookup_2. }
  assert (HB : incl (keys d) (List.map snd d)).
  { intros k Hin. destruct (HA k Hin) as (c & _ & Hg).
    apply dict_get_Some in Hg. apply in_map_iff. by exists (c, k). }
  assert (HC : incl (List.map snd d) (keys d)).
  { apply NoDup_length_incl; [done| |done].
    unfold keys. by rewrite !length_map. }
  destruct (Forall2_choose _ _ HA) as [cs Hcs].
  assert (Hcs_nd : List.NoDup cs).
  { eapply Forall2_NoDup; [exact Hcs| |exact Hnd].
    intros a a' b [_ Ha] [_ Ha']. congruence. }
  assert (Hcs_incl : incl cs (keys d)).
  { intros c Hc. destruct (Forall2_In_r _ _ _ c Hcs Hc) as (k & _ & _ & Hg).
    apply dict_get_Some in Hg. unfold keys. apply in_map_iff. by exists (c, k). }
  assert (HD : incl (keys d) cs).
  { apply NoDup_length_incl; [done| |done].
    by rewrite (Forall2_length _ _ _ Hcs). }
  split; [|split; [exact HB|]].
  - intros k Hin.
    destruct (Forall2_In_l _ _ _ k Hk Hin) as (p & _ & Hl & _).
    apply label_position_ok in Hl as [Hl _]. apply list_elem_of_In.
    by eapply list_elem_of_lookup_2.
  - intros v Hv. split; [by apply HC|].
    destruct (Forall2_In_r _ _ _ v Hcs (HD v (HC v Hv))) as (k & _ & Hin & _).
    done.
Qed.

Lemma merge_raise_keys a b on e :
  get_merge_keys (columns a) (columns b) on = Raise e -> merge a b on = Raise e.
Proof. intros H. unfold merge. by rewrite H. Qed.

Lemma merge_raise_empty a b : exists e, merge a b [] = Raise e.
Proof.
  unfold merge. simpl. destruct (indicator_pre_merge _ _); simpl; by eexists.
Qed.

Lemma labelled_join_raise L R m ln rn e :
  merge L (rename R m) (keys m) = Raise e ->
  labelled_join L R m ln rn = Raise e.
Proof. intros H. unfold labelled_join. by rewrite H. Qed.

(** ** Invalid mappings *)

(** C3, as the code has it.  When the mapping is empty, or one of its keys
    is no column of the left frame, or one of its values is no column of the
    right frame, [compare_datasets] does not raise: it shows one error
    message through [st.error] and returns the flag [False] with an empty
    frame.  The two input frames are as before. *)
Theorem invalid_mapping_is_reported s df1 df2 D1 D2 m ln rn :
  frames s !! df1 = Some D1 ->
  frames s !! df2 = Some D2 ->
  List.NoDup (keys m) ->
  (m = [] \/
   exists k v, In (k, v) m /\ (~ In k (columns D1) \/ ~ In v (columns D2))) ->
  exists e ref s',
    compare_datasets df1 df2 m ln rn s = (Ok (false, ref), s') /\
    frames s' !! ref = Some empty_frame /\
    ui s' = ui s ++ [StError "Error comparing datasets: " e] /\
    frames s' !! df1 = Some D1 /\
    frames s' !! df2 = Some D2.
Proof.
  intros H1 H2 Hnd Hbad.
  assert (Hm : exists e, merge D1 (rename D2 m) (keys m) = Raise e).
  { destruct Hbad as [->|(k & v & Hin & Habs)]; [apply merge_raise_empty|].
    destruct (get_merge_keys (columns D1) (columns (rename D2 m)) (keys m))
      as [idx|e] eqn:Hk; [|exists e; by apply merge_raise_keys].
    exfalso.
    destruct (renamed_keys_permutation m _ _ idx Hnd Hk) as (HL & _ & HR).
    destruct Habs as [Habs|Habs]; apply Habs.
    - apply HL. unfold keys. apply in_map_iff. by exists (k, v).
    - apply HR. apply in_map_iff. by exists (k, v). }
  destruct Hm as [e Hm].
  destruct (compare_datasets_run df1 df2 D1 D2 m ln rn s H1 H2)
    as (ref & s' & Hrun & Href & Hsub & Hui & _).
  rewrite (outcome_raise _ _ _ _ _ e (labelled_join_raise _ _ _ ln rn e Hm))
    in Hrun, Href, Hui.
  exists e, ref, s'. split; [exact Hrun|]. split; [exact Href|].
  split; [exact Hui|]. split; by eapply lookup_weaken.
Qed.

(** C3 on a mapping whose value [key] is no column of the right frame. *)
Lemma invalid_mapping_is_reported_witness :
  exists e ref s',
    compare_datasets 0 1 [("id", "key")] "left" "right"
      (initial_state scenario3_left scenario3_right)
    = (Ok (false, ref), s') /\
    frames s' !! ref = Some empty_frame /\
    ui s' = [StError "Error comparing datasets: " e].
Proof.
  destruct (invalid_mapping_is_reported
              (initial_state scenario3_left scenario3_right) 0 1
              scenario3_left scenario3_right [("id", "key")] "left" "right"
              eq_refl eq_refl)
    as (e & ref & s' & Hrun & Href & Hui & _).
  - repeat constructor. simpl. tauto.
  - right. exists "id", "key". split; [by left|]. right. simpl.
    intros [H|[H|[]]]; discriminate H.
  - by exists e, ref, s'.
Defined.

(** C3, as stated, fails: with an empty mapping the call returns a flag and
    a frame and leaves a message in the log, where the claim has it raise
    and leave the state as it was. *)
Lemma invalid_mapping_is_not_raised :
  ~ (forall s df1 df2 D1 D2 m ln rn,
        frames s !! df1 = Some D1 ->
        frames s !! df2 = Some D2 ->
        (m = [] \/
         exists k v, In (k, v) m /\
                     (~ In k (columns D1) \/ ~ In v (columns D2))) ->
        exists e, compare_datasets df1 df2 m ln rn s = (Raise e, s)).
Proof.
  intros H.
  destruct (H (initial_state scenario3_left scenario3_right) 0 1
              scenario3_left scenario3_right [] "left" "right"
              eq_refl eq_refl (or_introl eq_refl)) as [e He].
  vm_compute in He. discriminate He.
Qed.

(** ** The renaming of the right frame *)

(** C2, at the failing input.  For the mapping [{id: ident}] the call
    [rename(columns=mapping)] looks for a column [id] in the right frame,
    finds none and leaves [ident] as it is; the merge on [id] then raises
    [KeyError], which the handler reports.  Renaming with the inverted
    mapping, as the claim describes, gives the right frame the column [id]
    and the merge is computed. *)
Theorem rename_looks_up_left_names :
  columns (rename scenario_rename_right scenario_rename_mapping) = ["ident"] /\
  merge scenario_rename_left
    (rename scenario_rename_right scenario_rename_mapping)
    (keys scenario_rename_mapping) = Raise (KeyError "id") /\
  compare scenario_rename_left scenario_rename_right scenario_rename_mapping
    "left" "right" = Some (false, empty_frame) /\
  ui (snd (compare_datasets 0 1 scenario_rename_mapping "left" "right"
             (initial_state scenario_rename_left scenario_rename_right)))
  = [StError "Error comparing datasets: " (KeyError "id")] /\
  columns (rename scenario_rename_right (invert scenario_rename_mapping))
  = ["id"] /\
  merge scenario_rename_left
    (rename scenario_rename_right (invert scenario_rename_mapping))
    (keys scenario_rename_mapping)
  = Ok (mkFrame ["id"; "_merge"] [[CNum 1; CText "both"]]).
Proof. repeat split; vm_compute; reflexivity. Qed.

(** ** Missing values in key columns *)

Lemma full_outer_join_both lidx ridx ls rs l r :
  In l ls -> In r rs -> keys_match lidx ridx l r = true ->
  In (JBoth l r) (full_outer_join lidx ridx ls rs).
Proof.
  intros Hl Hr Hm. unfold full_outer_join. apply in_or_app. left.
  apply in_flat_map. exists l. split; [done|].
  assert (Hin : In r (List.filter (keys_match lidx ridx l) rs))
    by by apply filter_In.
  destruct (List.filter (keys_match lidx ridx l) rs) as [|r0 ms]; [done|].
  by apply in_map.
Qed.

Lemma keys_match_cells (idx : list (nat * nat)) l r :
  keys_match (List.map fst idx) (List.map snd idx) l r = true <->
  forall i j, In (i, j) idx -> cell l i = cell r j.
Proof.
  unfold keys_match, key_tuple. rewrite bool_decide_eq_true.
  induction idx as [|[i0 j0] idx IH]; simpl.
  - split; [intros _ i j []|done].
  - split.
    + intros [= H0 Hrest] i j [[= <- <-]|Hin]; [done|]. by apply IH.
    + intros H. f_equal; [apply H; by left|].
      apply IH. intros i j Hin. apply H. by right.
Qed.

Lemma cell_app_l (a b : Row) p : p < length a -> cell (a ++ b) p = cell a p.
Proof. intros Hp. unfold cell. by apply app_nth1. Qed.

(** C4, as the code has it.  A left row and a right row whose cells agree in
    every key column, a missing cell agreeing with a missing cell, are
    merged into one row of the join, labelled in-both, that carries the
    cells of the left row. *)
Theorem missing_keys_match L R m ln rn merged idx l r :
  labelled_join L R m ln rn = Ok merged ->
  get_merge_keys (columns L) (columns (rename R m)) (keys m) = Ok idx ->
  In l (rows L) ->
  In r (rows R) ->
  (forall i j, In (i, j) idx -> cell l i = cell r j) ->
  exists row,
    In row (rows merged) /\
    dataset_cell merged row = CText (in_both ln rn) /\
    forall p, p < length (columns L) -> cell row p = cell l p.
Proof.
  intros Hj Hk Hl Hr Hcells.
  destruct (labelled_join_inv _ _ _ _ _ _ Hj) as (idx' & rnk & Hk' & Hp & Hrows).
  rewrite Hk in Hk'. injection Hk' as <-.
  exists (joined_body (length (columns L)) idx rnk (JBoth l r)
          ++ [CText (class_label ln rn both)]).
  split; [|split].
  - rewrite Hrows.
    apply (in_map (fun j => joined_body (length (columns L)) idx rnk j
                            ++ [CText (class_label ln rn (indicator_of j))])
             _ (JBoth l r)).
    apply full_outer_join_both; [done|done|]. by apply keys_match_cells.
  - unfold dataset_cell. rewrite Hp.
    rewrite <- (joined_body_length (length (columns L)) idx rnk (JBoth l r)).
    apply cell_app_last.
  - intros p Hlt.
    rewrite cell_app_l by (rewrite joined_body_length; lia).
    simpl. rewrite cell_app_l by (rewrite length_map, length_seq; lia).
    unfold cell.
    rewrite (nth_indep _ CMissing (nth 0 l CMissing))
      by (rewrite length_map, length_seq; lia).
    rewrite (map_nth (fun i => nth i l CMissing)), seq_nth by lia. done.
Qed.

(** C4 on two frames whose only key cell is missing. *)
Lemma missing_keys_match_witness :
  exists row,
    In row [[CMissing; CText "In both left and right"]] /\
    dataset_cell
      (mkFrame ["id"; "Dataset"] [[CMissing; CText "In both left and right"]])
      row = CText (in_both "left" "right") /\
    forall p, p < 1 -> cell row p = cell [CMissing] p.
Proof.
  apply (missing_keys_match scenario_missing scenario_missing [("id", "id")]
           "left" "right"
           (mkFrame ["id"; "Dataset"] [[CMissing; CText "In both left and right"]])
           [(0, 0)] [CMissing] [CMissing]).
  - vm_compute. reflexivity.
  - vm_compute. reflexivity.
  - by left.
  - by left.
  - intros i j [[= <- <-]|[]]. reflexivity.
Defined.

(** C4, as stated, fails: two rows whose only key cell is missing on both
    sides are matched by the join. *)
Lemma missing_keys_are_matched :
  ~ (forall L R m idx l r i j,
        get_merge_keys (columns L) (columns (rename R m)) (keys m) = Ok idx ->
        In l (rows L) ->
        In r (rows R) ->
        In (i, j) idx ->
        cell l i = CMissing ->
        cell r j = CMissing ->
        keys_match (List.map fst idx) (List.map snd idx) l r = false).
Proof.
  intros H.
  specialize (H scenario_missing scenario_missing [("id", "id")] [(0, 0)]
                [CMissing] [CMissing] 0 0).
  assert (Hm : keys_match [0] [0] [CMissing] [CMissing] = false).
  { apply H; try reflexivity; by left. }
  vm_compute in Hm. discriminate Hm.
Qed.

(** ** Symmetry *)

(** The join has only paired rows exactly when every row of either side has
    a partner on the other side. *)
Lemma full_outer_join_all_both lidx ridx ls rs :
  List.Forall (fun j => indicator_of j = both) (full_outer_join lidx ridx ls rs)
  <->
  (forall l, In l ls -> exists r, In r rs /\ keys_match lidx ridx l r = true) /\
  (forall r, In r rs -> exists l, In l ls /\ keys_match lidx ridx l r = true).
Proof.
  unfold full_outer_join. rewrite List.Forall_app, !List.Forall_forall. split.
  - intros [HL HR]. split.
    + intros l Hl.
      destruct (List.filter (keys_match lidx ridx l) rs) as [|r ms] eqn:Hf.
      * specialize (HL (JLeft l)). simpl in HL.
        assert (left_only = both); [|done]. apply HL.
        apply in_flat_map. exists l. split; [done|]. rewrite Hf. by left.
      * assert (Hr : In r (List.filter (keys_match lidx ridx l) rs))
          by (rewrite Hf; by left).
        apply filter_In in Hr. by exists r.
    + intros r Hr.
      destruct (List.existsb (fun l => keys_match lidx ridx l r) ls) eqn:He.
      * apply existsb_exists in He as (l & Hl & Hm). by exists l.
      * specialize (HR (JRight r)). simpl in HR.
        assert (right_only = both); [|done]. apply HR.
        apply in_map, filter_In. split; [done|]. by rewrite He.
  - intros [HL HR]. split.
    + intros j Hj. apply in_flat_map in Hj as (l & Hl & Hj).
      destruct (HL l Hl) as (r & Hr & Hm).
      assert (Hin : In r (List.filter (keys_match lidx ridx l) rs))
        by by apply filter_In.
      destruct (List.filter (keys_match lidx ridx l) rs) as [|r0 ms]; [done|].
      apply in_map_iff in Hj as (r' & <- & _). done.
    + intros j Hj. apply in_map_iff in Hj as (r & <- & Hr).
      apply filter_In in Hr as [Hr Hno].
      destruct (HR r Hr) as (l & Hl & Hm).
      apply negb_true_iff in Hno.
      assert (List.existsb (fun l => keys_match lidx ridx l r) ls = true)
        by (apply existsb_exists; by exists l).
      congruence.
Qed.

(** The flag in terms of the rows of the full outer join. *)
Lemma flag_all_both L R m ln rn mg :
  labelled_join L R m ln rn = Ok mg ->
  exists idx,
    get_merge_keys (columns L) (columns (rename R m)) (keys m) = Ok idx /\
    (fst (fst (outcome L R m ln rn)) = true <->
     List.Forall (fun j => indicator_of j = both)
       (full_outer_join (List.map fst idx) (List.map snd idx) (rows L) (rows R))
     /\ len L = len R).
Proof.
  intros Hj.
  destruct (labelled_join_inv _ _ _ _ _ _ Hj) as (idx & rnk & Hk & Hp & Hrows).
  exists idx. split; [done|].
  rewrite (outcome_ok _ _ _ _ _ mg Hj). simpl.
  rewrite andb_true_iff, length_zero_eqb, filter_nil_iff, Nat.eqb_eq.
  rewrite Hrows, List.Forall_map.
  apply and_iff_compat_r. apply Forall_iff. intros j.
  rewrite differs_from_false. unfold dataset_cell. rewrite Hp.
  rewrite <- (joined_body_length (length (columns L)) idx rnk j).
  rewrite cell_app_last. split.
  - intros [= H]. by apply class_label_in_both in H.
  - intros ->. done.
Qed.

Lemma In_invert m a b : In (a, b) (invert m) <-> In (b, a) m.
Proof.
  unfold invert. rewrite in_map_iff. split.
  - intros ([k v] & [= <- <-] & Hin). done.
  - intros Hin. by exists (b, a).
Qed.

Lemma keys_invert m : keys (invert m) = List.map snd m.
Proof. unfold keys, invert. rewrite map_map. done. Qed.

Lemma values_invert m : List.map snd (invert m) = keys m.
Proof. unfold keys, invert. rewrite map_map. done. Qed.

Lemma invert_involutive m : invert (invert m) = m.
Proof.
  unfold invert. rewrite map_map. rewrite <- (map_id m) at 2.
  apply map_ext. by intros [k v].
Qed.

Lemma In_keys m k v : In (k, v) m -> In k (keys m).
Proof. intros H. unfold keys. apply in_map_iff. by exists (k, v). Qed.

(** A key column pair of the call on [(left, right, mapping)] is, swapped,
    a key column pair of the call on [(right, left, invert mapping)]. *)
Lemma swapped_pair m lcols rcols idx1 idx2 i j :
  List.NoDup (keys m) ->
  get_merge_keys lcols (List.map (rename_label m) rcols) (keys m) = Ok idx1 ->
  get_merge_keys rcols (List.map (rename_label (invert m)) lcols)
    (keys (invert m)) = Ok idx2 ->
  In (i, j) idx1 -> In (j, i) idx2.
Proof.
  intros Hnd H1 H2 Hin.
  destruct (renamed_keys_permutation m _ _ idx1 Hnd H1) as (_ & HB & _).
  apply get_merge_keys_inv in H1, H2.
  destruct (Forall2_In_r _ _ _ _ H1 Hin) as (k & Hk & Hl & Hr). simpl in *.
  apply label_position_ok in Hl as [Hl Hlu], Hr as [Hr _].
  destruct (renamed_key_origin m rcols j k Hk Hr) as (c & Hc & Hg).
  assert (Hck : In (c, k) m) by by apply dict_get_Some.
  assert (Hcv : In c (keys (invert m))).
  { rewrite keys_invert. apply HB. by eapply In_keys. }
  destruct (Forall2_In_l _ _ _ c H2 Hcv) as ([j' i'] & Hp & Hl2 & Hr2).
  simpl in *.
  apply label_position_ok in Hl2 as [_ Hl2u], Hr2 as [Hr2 _].
  destruct (renamed_key_origin (invert m) lcols i' c Hcv Hr2) as (c' & Hc' & Hg').
  apply dict_get_Some in Hg'. apply (proj1 (In_invert _ _ _)) in Hg'.
  apply (dict_get_In _ _ _ Hnd) in Hg'.
  assert (c' = k) as -> by congruence.
  rewrite <- (Hl2u j Hc), (Hlu i' Hc') in Hp. done.
Qed.

Lemma swapped_pairs m lcols rcols idx1 idx2 i j :
  List.NoDup (keys m) ->
  get_merge_keys lcols (List.map (rename_label m) rcols) (keys m) = Ok idx1 ->
  get_merge_keys rcols (List.map (rename_label (invert m)) lcols)
    (keys (invert m)) = Ok idx2 ->
  In (i, j) idx1 <-> In (j, i) idx2.
Proof.
  intros Hnd H1 H2. split; [by eapply swapped_pair|].
  destruct (renamed_keys_permutation m _ _ idx1 Hnd H1) as (_ & HB & _).
  assert (Hnd' : List.NoDup (keys (invert m))).
  { rewrite keys_invert.
    apply (NoDup_incl_NoDup (l := keys m)); [done| |done].
    unfold keys. by rewrite !length_map. }
  apply (swapped_pair (invert m) rcols lcols idx2 idx1); [done|done|].
  by rewrite invert_involutive.
Qed.

Lemma keys_match_swapped m lcols rcols idx1 idx2 l r :
  List.NoDup (keys m) ->
  get_merge_keys lcols (List.map (rename_label m) rcols) (keys m) = Ok idx1 ->
  get_merge_keys rcols (List.map (rename_label (invert m)) lcols)
    (keys (invert m)) = Ok idx2 ->
  keys_match (List.map fst idx1) (List.map snd idx1) l r = true <->
  keys_match (List.map fst idx2) (List.map snd idx2) r l = true.
Proof.
  intros Hnd H1 H2. rewrite !keys_match_cells. split.
  - intros H j i Hin. symmetry. apply H. by eapply swapped_pairs.
  - intros H i j Hin. symmetry. apply H.
    by apply (swapped_pairs m lcols rcols idx1 idx2).
Qed.

(** When both joins are computed, the two calls agree on the flag. *)
Lemma flags_equal_when_both_join L R m ln rn ln' rn' mg mg' :
  List.NoDup (keys m) ->
  labelled_join L R m ln rn = Ok mg ->
  labelled_join R L (invert m) ln' rn' = Ok mg' ->
  fst (fst (outcome L R m ln rn)) = fst (fst (outcome R L (invert m) ln' rn')).
Proof.
  intros Hnd H1 H2.
  destruct (flag_all_both _ _ _ _ _ _ H1) as (idx1 & Hk1 & Hf1).
  destruct (flag_all_both _ _ _ _ _ _ H2) as (idx2 & Hk2 & Hf2).
  apply eq_true_iff_eq. rewrite Hf1, Hf2.
  rewrite !full_outer_join_all_both.
  assert (Hsw : forall l r,
    keys_match (List.map fst idx1) (List.map snd idx1) l r = true <->
    keys_match (List.map fst idx2) (List.map snd idx2) r l = true).
  { intros l r. by apply (keys_match_swapped m (columns L) (columns R)). }
  split.
  - intros [[HL HR] Hlen]. split; [split|done].
    + intros r Hr. destruct (HR r Hr) as (l & Hl & Hm).
      exists l. split; [done|]. by apply Hsw.
    + intros l Hl. destruct (HL l Hl) as (r & Hr & Hm).
      exists r. split; [done|]. by apply Hsw.
  - intros [[HR HL] Hlen]. split; [split|done].
    + intros l Hl. destruct (HL l Hl) as (r & Hr & Hm).
      exists r. split; [done|]. by apply Hsw.
    + intros r Hr. destruct (HR r Hr) as (l & Hl & Hm).
      exists l. split; [done|]. by apply Hsw.
Qed.

Lemma NoDup_all_equal {A} (l : list A) (x : A) :
  List.NoDup l -> In x l -> (forall y, In y l -> y = x) -> l = [x].
Proof.
  intros Hnd Hx Hall. destruct l as [|a l]; [done|].
  assert (a = x) as -> by (apply Hall; by left).
  destruct l as [|b l]; [done|].
  assert (b = x) as -> by (apply Hall; right; by left).
  apply List.NoDup_cons_iff in Hnd as [Hnot _]. destruct Hnot. by left.
Qed.

Lemma label_position_intro cols k i :
  cols !! i = Some k ->
  (forall j, cols !! j = Some k -> j = i) ->
  label_position cols k = Ok i.
Proof.
  intros Hi Huniq. unfold label_position.
  rewrite (NoDup_all_equal (positions k cols) i); [done| | |].
  - unfold positions. apply List.NoDup_filter, List.seq_NoDup.
  - by apply In_positions.
  - intros j Hj. apply Huniq. by apply In_positions.
Qed.

Lemma get_merge_keys_ok lcols rcols on :
  (forall k, In k on -> exists i, label_position lcols k = Ok i) ->
  (forall k, In k on -> exists j, label_position rcols k = Ok j) ->
  exists idx, get_merge_keys lcols rcols on = Ok idx.
Proof.
  intros HL HR. induction on as [|k on IH]; simpl; [by eexists|].
  destruct (HR k) as [j ->]; [by left|].
  destruct (HL k) as [i ->]; [by left|]. simpl.
  destruct IH as [idx ->].
  - intros k' Hk'. apply HL. by right.
  - intros k' Hk'. apply HR. by right.
  - by eexists.
Qed.

Lemma dict_get_key d k : In k (keys d) -> exists v, dict_get d k = Some v.
Proof.
  intros Hk. destruct (dict_get d k) as [v|] eqn:Hg; [by exists v|].
  by apply dict_get_None in Hg.
Qed.

Lemma In_lookup (cols : list string) c : In c cols -> exists i, cols !! i = Some c.
Proof. intros H. apply list_elem_of_In in H. by apply list_elem_of_lookup_1. Qed.

Lemma NoDup_values m idx lcols rcols :
  List.NoDup (keys m) ->
  get_merge_keys lcols (List.map (rename_label m) rcols) (keys m) = Ok idx ->
  List.NoDup (keys (invert m)).
Proof.
  intros Hnd Hk.
  destruct (renamed_keys_permutation m _ _ idx Hnd Hk) as (_ & HB & _).
  rewrite keys_invert.
  apply (NoDup_incl_NoDup (l := keys m)); [done| |done].
  unfold keys. by rewrite !length_map.
Qed.

(** The keys of the call on [(left, right, mapping)] are found exactly when
    the keys of the call on [(right, left, invert mapping)] are. *)
Lemma swapped_keys_ok m lcols rcols idx1 :
  List.NoDup (keys m) ->
  get_merge_keys lcols (List.map (rename_label m) rcols) (keys m) = Ok idx1 ->
  exists idx2,
    get_merge_keys rcols (List.map (rename_label (invert m)) lcols)
      (keys (invert m)) = Ok idx2.
Proof.
  intros Hnd H1.
  pose proof (NoDup_values m idx1 lcols rcols Hnd H1) as Hnd'.
  destruct (renamed_keys_permutation m _ _ idx1 Hnd H1) as (HL & HB & HR).
  apply get_merge_keys_inv in H1.
  assert (Hpos : forall k, In k (keys m) ->
            exists i j, label_position lcols k = Ok i /\
                        label_position (List.map (rename_label m) rcols) k = Ok j).
  { intros k Hk. destruct (Forall2_In_l _ _ _ k H1 Hk) as ([i j] & _ & Hi & Hj).
    by exists i, j. }
  assert (Himg : forall v, In v (keys (invert m)) ->
            exists c, dict_get m v = Some c /\ In c (keys m) /\
                      dict_get (invert m) c = Some v).
  { intros v Hv. rewrite keys_invert in Hv. destruct (HR v Hv) as [Hvk _].
    destruct (dict_get_key m v Hvk) as [c Hc]. exists c. split; [done|].
    pose proof (dict_get_Some _ _ _ Hc) as Hin. split.
    - apply HR. apply in_map_iff. by exists (v, c).
    - apply dict_get_In; [done|]. by apply In_invert. }
  apply get_merge_keys_ok.
  - intros v Hv. destruct (Himg v Hv) as (c & Hc & Hck & _).
    assert (Hvr : In v rcols) by (apply HR; by rewrite <- keys_invert).
    destruct (In_lookup _ _ Hvr) as [i Hi]. exists i.
    destruct (Hpos c Hck) as (_ & p & _ & Hp).
    apply label_position_ok in Hp as [_ Hp].
    assert (Hren : forall j, rcols !! j = Some v ->
              List.map (rename_label m) rcols !! j = Some c).
    { intros j Hj. rewrite list_lookup_fmap, Hj. simpl.
      unfold rename_label. by rewrite Hc. }
    apply label_position_intro; [done|].
    intros j Hj. rewrite (Hp i (Hren i Hi)), (Hp j (Hren j Hj)). done.
  - intros v Hv. destruct (Himg v Hv) as (c & Hc & Hck & Hinv).
    destruct (Hpos c Hck) as (i & _ & Hi & _).
    apply label_position_ok in Hi as [Hi Hiu]. exists i.
    apply label_position_intro.
    + rewrite list_lookup_fmap, Hi. simpl. unfold rename_label. by rewrite Hinv.
    + intros j Hj.
      destruct (renamed_key_origin (invert m) lcols j v Hv Hj) as (c' & Hc' & Hg).
      apply dict_get_Some in Hg. apply (proj1 (In_invert _ _ _)) in Hg.
      apply (dict_get_In _ _ _ Hnd) in Hg.
      assert (c' = c) as -> by congruence. by apply Hiu.
Qed.

(** *** Labels of the merged frame under the swap *)

Lemma mem_In x l : mem x l = true <-> In x l.
Proof. unfold mem. rewrite bool_decide_eq_true. apply list_elem_of_In. Qed.

Lemma mem_not_In x l : mem x l = false <-> ~ In x l.
Proof. rewrite <- mem_In. by destruct (mem x l). Qed.

Lemma In_nonkey_labels c cols on :
  In c (nonkey_labels cols on) <-> In c cols /\ ~ In c on.
Proof.
  unfold nonkey_labels, nonkey_positions. rewrite in_map_iff. split.
  - intros (j & <- & Hj). apply filter_In in Hj as [Hj Hno].
    apply in_seq in Hj. apply negb_true_iff, mem_not_In in Hno.
    split; [|done]. apply nth_In. lia.
  - intros [Hc Hno]. destruct (In_nth _ _ "" Hc) as (j & Hj & <-).
    exists j. split; [done|]. apply filter_In. split; [apply in_seq; lia|].
    by apply negb_true_iff, mem_not_In.
Qed.

(** When the values of the mapping are among its keys, the labels of the
    renamed frame that are not keys are the labels of the frame that are
    not keys. *)
Lemma In_renamed_nonkey m cols x :
  (forall v, In v (List.map snd m) -> In v (keys m)) ->
  In x (nonkey_labels (List.map (rename_label m) cols) (keys m))
  <-> In x cols /\ ~ In x (keys m).
Proof.
  intros HV. rewrite In_nonkey_labels, in_map_iff. split.
  - intros [(c & <- & Hc) Hno]. unfold rename_label in *.
    destruct (dict_get m c) as [v|] eqn:Hg; [|done].
    exfalso. apply Hno, HV. apply dict_get_Some in Hg.
    apply in_map_iff. by exists (c, v).
  - intros [Hx Hno]. split; [|done]. exists x. split; [|done].
    unfold rename_label. destruct (dict_get m x) as [v|] eqn:Hg; [|done].
    exfalso. apply Hno. apply dict_get_Some in Hg. by eapply In_keys.
Qed.

Lemma indicator_pre_merge_ok lcols rcols :
  indicator_pre_merge lcols rcols = Ok tt <->
  ~ In "_left_indicator" (lcols ++ rcols) /\
  ~ In "_right_indicator" (lcols ++ rcols) /\
  ~ In "_merge" (lcols ++ rcols).
Proof.
  unfold indicator_pre_merge. rewrite <- !mem_not_In.
  destruct (mem "_left_indicator" _), (mem "_right_indicator" _),
    (mem "_merge" _); split; try done; intros (? & ? & ?); done.
Qed.

Lemma In_to_rename t lcols rcols :
  In t (to_rename lcols rcols) <-> In t lcols /\ In t rcols.
Proof. unfold to_rename. by rewrite filter_In, mem_In. Qed.

(** A label that does not end in a suffix is among the suffixed labels
    exactly when it is among the labels and needs no suffix. *)
Lemma In_suffixed t tr sfx cols :
  (forall c, c +:+ sfx <> t) ->
  In t (List.map (add_suffix tr sfx) cols) <-> In t cols /\ ~ In t tr.
Proof.
  intros Hsfx. rewrite in_map_iff. unfold add_suffix. split.
  - intros (c & Hc & Hin). destruct (mem c tr) eqn:Hm.
    + by destruct (Hsfx c).
    + subst c. split; [done|]. by apply mem_not_In.
  - intros [Hin Hno]. exists t. split; [|done].
    apply mem_not_In in Hno. by rewrite Hno.
Qed.

Ltac strip_suffix H c :=
  repeat (destruct c as [|? c]; cbn in H; [discriminate H|];
          injection H as _ H);
  destruct c; discriminate H.

Lemma suffix_x_Dataset c : c +:+ "_x" <> "Dataset".
Proof. intros H. strip_suffix H c. Qed.

Lemma suffix_y_Dataset c : c +:+ "_y" <> "Dataset".
Proof. intros H. strip_suffix H c. Qed.

Lemma suffix_x_merge c : c +:+ "_x" <> "_merge".
Proof. intros H. strip_suffix H c. Qed.

Lemma suffix_y_merge c : c +:+ "_y" <> "_merge".
Proof. intros H. strip_suffix H c. Qed.

(** Whether such a label is among the labels of the merged frame. *)
Lemma In_merged_labels t lcols rcols :
  (forall c, c +:+ "_x" <> t) ->
  (forall c, c +:+ "_y" <> t) ->
  In t (List.map (add_suffix (to_rename lcols rcols) "_x") lcols
        ++ List.map (add_suffix (to_rename lcols rcols) "_y") rcols)
  <-> (In t lcols /\ ~ In t rcols) \/ (In t rcols /\ ~ In t lcols).
Proof.
  intros Hx Hy. rewrite in_app_iff, !In_suffixed, In_to_rename by done. tauto.
Qed.

Lemma positions_intro cols k i :
  cols !! i = Some k ->
  (forall j, cols !! j = Some k -> j = i) ->
  positions k cols = [i].
Proof.
  intros Hi Huniq. apply NoDup_all_equal.
  - unfold positions. apply List.NoDup_filter, List.seq_NoDup.
  - by apply In_positions.
  - intros j Hj. apply Huniq. by apply In_positions.
Qed.

Lemma rename_to_Dataset c :
  rename_label [("_merge", "Dataset")] c = "Dataset" <->
  c = "_merge" \/ c = "Dataset".
Proof.
  unfold rename_label, dict_get. cbn [List.find fst snd].
  destruct (String.eqb_spec "_merge" c) as [<-|Hne]; cbn [snd].
  - split; [intros _; by left|done].
  - split; [intros ->; by right|]. intros [-> | ->]; done.
Qed.

(** The labelling goes through exactly when the merged frame has no other
    column that would be called [Dataset]. *)
Lemma labelled_join_ok L R m ln rn mg0 labels :
  merge L (rename R m) (keys m) = Ok mg0 ->
  columns mg0 = labels ++ ["_merge"] ->
  ~ In "Dataset" labels ->
  ~ In "_merge" labels ->
  exists mg, labelled_join L R m ln rn = Ok mg.
Proof.
  intros Hm Hc HD HM. unfold labelled_join. rewrite Hm. simpl.
  unfold getitem. simpl. rewrite Hc.
  rewrite (positions_intro _ _ (length labels)).
  - simpl. by eexists.
  - rewrite map_app, lookup_app_r by (by rewrite length_map).
    by rewrite length_map, Nat.sub_diag.
  - intros j Hj. rewrite list_lookup_fmap in Hj.
    destruct ((labels ++ ["_merge"]) !! j) as [c|] eqn:Hcj; [|done].
    simpl in Hj. injection Hj as Hj. apply rename_to_Dataset in Hj.
    destruct (decide (j < length labels)) as [Hlt|Hge].
    + rewrite lookup_app_l in Hcj by done.
      apply list_elem_of_lookup_2, list_elem_of_In in Hcj.
      destruct Hj as [->| ->]; done.
    + apply lookup_lt_Some in Hcj. rewrite length_app in Hcj. simpl in Hcj. lia.
Qed.

Lemma labelled_join_labels L R m ln rn mg :
  labelled_join L R m ln rn = Ok mg ->
  exists mg0 labels,
    merge L (rename R m) (keys m) = Ok mg0 /\
    columns mg0 = labels ++ ["_merge"] /\
    ~ In "Dataset" labels /\
    ~ In "_merge" labels.
Proof.
  unfold labelled_join. intros H.
  destruct (merge L (rename R m) (keys m)) as [mg0|e] eqn:Hm; simpl in H; [|done].
  pose proof (merge_inv _ _ _ _ Hm) as (idx & _ & _ & _ & Hc & _).
  rewrite app_assoc in Hc.
  match type of Hc with _ = ?l ++ _ => set (labels := l) in * end.
  exists mg0, labels. split; [done|]. split; [done|].
  unfold getitem in H. simpl in H.
  destruct (positions "Dataset" _) as [|i [|i' ps]] eqn:Hp; simpl in H;
    [done| |done].
  rewrite Hc in Hp.
  assert (Hlast : List.map (rename_label [("_merge", "Dataset")])
                    (labels ++ ["_merge"]) !! length labels = Some "Dataset").
  { rewrite map_app, lookup_app_r by (by rewrite length_map).
    by rewrite length_map, Nat.sub_diag. }
  assert (Hno : forall c, In c labels -> c = "_merge" \/ c = "Dataset" -> False).
  { intros c Hin Hc'. destruct (In_lookup _ _ Hin) as [j Hj].
    assert (Hlt : j < length labels) by by eapply lookup_lt_Some.
    assert (Hj' : List.map (rename_label [("_merge", "Dataset")])
                    (labels ++ ["_merge"]) !! j = Some "Dataset").
    { rewrite list_lookup_fmap, lookup_app_l, Hj by done. simpl.
      f_equal. by apply rename_to_Dataset. }
    pose proof (positions_single _ _ _ _ Hp Hj').
    pose proof (positions_single _ _ _ _ Hp Hlast). lia. }
  split; intros Hin; eapply Hno; eauto.
Qed.

(** When the labelled join of [(left, right, mapping)] is computed, so is
    the labelled join of [(right, left, invert mapping)], unless pandas
    refuses the second merge for a duplicate label made by a suffix. *)
Lemma labelled_join_swapped L R m ln rn ln' rn' mg :
  List.NoDup (keys m) ->
  labelled_join L R m ln rn = Ok mg ->
  (forall dups,
      merge R (rename L (invert m)) (keys (invert m)) <> Raise (MergeError dups)) ->
  exists mg', labelled_join R L (invert m) ln' rn' = Ok mg'.
Proof.
  intros Hnd Hj Hsfx.
  destruct (labelled_join_labels _ _ _ _ _ _ Hj) as (mg0 & labels & Hm & Hc & HD & HM).
  destruct (merge_inv _ _ _ _ Hm) as (idx1 & Hk1 & Hon & Hind & Hc1 & _).
  change (columns (rename R m)) with (List.map (rename_label m) (columns R)) in *.
  destruct (renamed_keys_permutation m _ _ idx1 Hnd Hk1) as (HL & HB & HR).
  destruct (swapped_keys_ok m _ _ idx1 Hnd Hk1) as [idx2 Hk2].
  rewrite Hc, app_assoc in Hc1. apply app_inj_tail in Hc1 as [-> _].
  set (rc1 := nonkey_labels (List.map (rename_label m) (columns R)) (keys m)) in *.
  set (rc2 := nonkey_labels (List.map (rename_label (invert m)) (columns L))
                (keys (invert m))).
  assert (Hrc1 : forall x, In x rc1 <-> In x (columns R) /\ ~ In x (keys m)).
  { intros x. apply In_renamed_nonkey. intros v Hv. by apply HR. }
  assert (Hrc2 : forall x, In x rc2 <-> In x (columns L) /\ ~ In x (List.map snd m)).
  { intros x. unfold rc2. rewrite In_renamed_nonkey, keys_invert; [done|].
    intros v Hv. rewrite values_invert in Hv. rewrite keys_invert. by apply HB. }
  assert (Hcase : forall t,
    ~ ((In t (columns L) /\ ~ In t rc1) \/ (In t rc1 /\ ~ In t (columns L))) ->
    ~ ((In t (columns R) /\ ~ In t rc2) \/ (In t rc2 /\ ~ In t (columns R)))).
  { intros t. rewrite Hrc1, Hrc2.
    pose proof (HL t). pose proof (HB t). pose proof (HR t).
    destruct (in_dec string_dec t (keys m)),
      (in_dec string_dec t (List.map snd m)),
      (in_dec string_dec t (columns L)),
      (in_dec string_dec t (columns R)); tauto. }
  assert (Hind2 : indicator_pre_merge (columns R) rc2 = Ok tt).
  { apply indicator_pre_merge_ok. apply indicator_pre_merge_ok in Hind.
    assert (Hsub : forall x, In x (columns R ++ rc2) -> In x (columns L ++ rc1)).
    { intros x. rewrite !in_app_iff, Hrc1, Hrc2.
      pose proof (HL x). pose proof (HB x). pose proof (HR x).
      destruct (in_dec string_dec x (keys m)); tauto. }
    destruct Hind as (H1 & H2 & H3). repeat split; intros Hin; eauto. }
  assert (Hon2 : keys (invert m) <> []).
  { rewrite keys_invert. unfold keys in Hon. destruct m; [done|]. done. }
  destruct (merge_ok R (rename L (invert m)) (keys (invert m)) idx2)
    as [mg0' Hm']; [done|done|done|done|].
  destruct (merge_inv _ _ _ _ Hm') as (_ & _ & _ & _ & Hc2 & _).
  change (columns (rename L (invert m)))
    with (List.map (rename_label (invert m)) (columns L)) in Hc2.
  fold rc2 in Hc2. rewrite app_assoc in Hc2.
  eapply labelled_join_ok; [exact Hm'|exact Hc2| |].
  - rewrite In_merged_labels by (apply suffix_x_Dataset || apply suffix_y_Dataset).
    apply Hcase. rewrite <- In_merged_labels
      by (apply suffix_x_Dataset || apply suffix_y_Dataset). done.
  - rewrite In_merged_labels by (apply suffix_x_merge || apply suffix_y_merge).
    apply Hcase. rewrite <- In_merged_labels
      by (apply suffix_x_merge || apply suffix_y_merge). done.
Qed.

(** C9, as the code has it.  For a one-to-one mapping, the call on
    [(left, right, mapping)] and the call on [(right, left, invert mapping)]
    return the same flag, provided pandas refuses neither merge for a
    duplicate label made by a suffix. *)
Theorem identical_is_symmetric s df1 df2 L R m ln rn ln' rn' :
  frames s !! df1 = Some L ->
  frames s !! df2 = Some R ->
  List.NoDup (keys m) ->
  List.NoDup (List.map snd m) ->
  (forall dups,
      merge L (rename R m) (keys m) <> Raise (MergeError dups)) ->
  (forall dups,
      merge R (rename L (invert m)) (keys (invert m)) <> Raise (MergeError dups)) ->
  exists flag ref s1 ref' s2,
    compare_datasets df1 df2 m ln rn s = (Ok (flag, ref), s1) /\
    compare_datasets df2 df1 (invert m) ln' rn' s = (Ok (flag, ref'), s2).
Proof.
  intros H1 H2 Hnd Hnd' Hs1 Hs2.
  destruct (compare_datasets_run df1 df2 L R m ln rn s H1 H2)
    as (ref & s1 & Hrun1 & _).
  destruct (compare_datasets_run df2 df1 R L (invert m) ln' rn' s H2 H1)
    as (ref' & s2 & Hrun2 & _).
  assert (Heq : fst (fst (outcome L R m ln rn))
                = fst (fst (outcome R L (invert m) ln' rn'))).
  { destruct (labelled_join L R m ln rn) as [mg|e] eqn:Hj1.
    - destruct (labelled_join_swapped L R m ln rn ln' rn' mg Hnd Hj1 Hs2)
        as [mg' Hj2].
      by eapply flags_equal_when_both_join.
    - destruct (labelled_join R L (invert m) ln' rn') as [mg'|e'] eqn:Hj2.
      + exfalso. rewrite <- keys_invert in Hnd'.
        destruct (labelled_join_swapped R L (invert m) ln' rn' ln rn mg' Hnd' Hj2)
          as [mg Hj]; rewrite invert_involutive in *; [done|congruence].
      + by rewrite (outcome_raise _ _ _ _ _ e Hj1),
          (outcome_raise _ _ _ _ _ e' Hj2). }
  exists (fst (fst (outcome L R m ln rn))), ref, s1, ref', s2.
  split; [exact Hrun1|]. rewrite Heq. exact Hrun2.
Qed.

Ltac nodup_labels :=
  unfold keys; simpl;
  repeat (apply List.NoDup_cons;
          [simpl; intuition discriminate|]);
  apply List.NoDup_nil.

(** C9 on a mapping that swaps the two columns. *)
Lemma identical_is_symmetric_witness :
  exists flag ref s1 ref' s2,
    compare_datasets 0 1 [("id", "v"); ("v", "id")] "left" "right"
      (initial_state scenario3_left scenario3_right) = (Ok (flag, ref), s1) /\
    compare_datasets 1 0 (invert [("id", "v"); ("v", "id")]) "right" "left"
      (initial_state scenario3_left scenario3_right) = (Ok (flag, ref'), s2).
Proof.
  apply (identical_is_symmetric (initial_state scenario3_left scenario3_right)
           0 1 scenario3_left scenario3_right [("id", "v"); ("v", "id")]).
  - reflexivity.
  - reflexivity.
  - nodup_labels.
  - nodup_labels.
  - intros dups. vm_compute. discriminate.
  - intros dups. vm_compute. discriminate.
Defined.

(** C9, as stated, fails: with the key [k] and a column [a] on both sides,
    a column [a_x] on the right makes pandas refuse the merge when the right
    frame is passed first, and only then. *)
Lemma identical_not_symmetric_under_suffix_clash :
  ~ (forall s df1 df2 L R m ln rn ln' rn',
        frames s !! df1 = Some L ->
        frames s !! df2 = Some R ->
        List.NoDup (keys m) ->
        List.NoDup (List.map snd m) ->
        m <> [] ->
        (forall k v, In (k, v) m -> In k (columns L) /\ In v (columns R)) ->
        exists flag ref s1 ref' s2,
          compare_datasets df1 df2 m ln rn s = (Ok (flag, ref), s1) /\
          compare_datasets df2 df1 (invert m) ln' rn' s = (Ok (flag, ref'), s2)).
Proof.
  intros H.
  destruct (H (initial_state scenario_suffix_left scenario_suffix_right) 0 1
              scenario_suffix_left scenario_suffix_right [("k", "k")]
              "left" "right" "right" "left" eq_refl eq_refl)
    as (flag & ref & s1 & ref' & s2 & Hrun1 & Hrun2).
  - nodup_labels.
  - nodup_labels.
  - done.
  - intros k v [[= <- <-]|[]]. simpl. tauto.
  - vm_compute in Hrun1, Hrun2.
    injection Hrun1 as <- _ _. injection Hrun2 as Hflag _ _. discriminate Hflag.
Qed.

(** * Further properties of the engine and of its callers *)

(** ** The rows of the labelled join *)

Lemma labelled_join_rows L R m ln rn mg :
  labelled_join L R m ln rn = Ok mg ->
  exists idx,
    get_merge_keys (columns L) (columns (rename R m)) (keys m) = Ok idx /\
    positions "Dataset" (columns mg)
    = [length (columns L)
       + length (nonkey_positions (columns (rename R m)) (keys m))] /\
    rows mg
    = List.map
        (labelled_cells ln rn (length (columns L)) idx
           (nonkey_positions (columns (rename R m)) (keys m)))
        (full_outer_join (List.map fst idx) (List.map snd idx)
           (rows L) (rows R)).
Proof.
  unfold labelled_join. intros H.
  destruct (merge L (rename R m) (keys m)) as [mg0|e] eqn:Hm; simpl in H; [|done].
  apply merge_inv in Hm as (idx & Hk & _ & _ & Hc & Hr).
  set (rnk := nonkey_positions (columns (rename R m)) (keys m)) in *.
  unfold getitem in H. simpl in H.
  set (cols := List.map (rename_label [("_merge", "Dataset")]) (columns mg0)) in *.
  set (n := length (columns L) + length rnk).
  assert (Hn : cols !! n = Some "Dataset").
  { unfold cols. rewrite Hc, app_assoc, map_app. simpl.
    rewrite lookup_app_r;
      rewrite length_map, length_app, !length_map; unfold nonkey_labels;
      rewrite ?length_map; fold rnk; [|done].
    by rewrite Nat.sub_diag. }
  destruct (positions "Dataset" cols) as [|i [|i' ps]] eqn:Hp; simpl in H;
    [done| |done].
  assert (i = n) as -> by (symmetry; by eapply positions_single).
  injection H as <-.
  exists idx.
  split; [done|]. unfold setitem. simpl. fold cols. rewrite Hp. simpl.
  split; [done|].
  rewrite Hr. change (rows (rename R m)) with (rows R).
  rewrite (map_map (fun r : Row => cell r n)), map_combine_map, map_map. simpl.
  apply map_ext. intros j. unfold joined_cells, labelled_cells. subst n.
  rewrite <- (joined_body_length (length (columns L)) idx rnk j).
  rewrite cell_app_last, set_cell_app_last. by rewrite map_cell_indicator.
Qed.

Lemma dataset_cell_labelled mg ln rn nl idx rnk j :
  positions "Dataset" (columns mg) = [nl + length rnk] ->
  dataset_cell mg (labelled_cells ln rn nl idx rnk j)
  = CText (class_label ln rn (indicator_of j)).
Proof.
  intros Hp. unfold dataset_cell, labelled_cells. rewrite Hp.
  rewrite <- (joined_body_length nl idx rnk j). apply cell_app_last.
Qed.

Lemma differs_labelled mg ln rn nl idx rnk j :
  positions "Dataset" (columns mg) = [nl + length rnk] ->
  differs_from (in_both ln rn) mg (labelled_cells ln rn nl idx rnk j)
  = negb (bool_decide (indicator_of j = both)).
Proof.
  intros Hp. unfold differs_from. rewrite (dataset_cell_labelled _ _ _ _ _ _ _ Hp).
  f_equal. apply bool_decide_ext. split.
  - intros [= H]. by apply class_label_in_both in H.
  - intros ->. done.
Qed.

Lemma filter_nil_existsb {A} (p : A -> bool) (l : list A) :
  List.filter p l = [] <-> List.existsb p l = false.
Proof.
  induction l as [|x l IH]; simpl; [done|].
  destruct (p x); simpl; [split; done|exact IH].
Qed.

Lemma filter_all {A} (p : A -> bool) (l : list A) :
  (forall x, p x = true) -> List.filter p l = l.
Proof.
  intros Hp. induction l as [|x l IH]; simpl; [done|]. by rewrite Hp, IH.
Qed.

(** The rows of the join that are not paired: one for every left row and
    one for every right row without a partner. *)
Lemma count_unpaired idx ls rs :
  length (List.filter (fun j => negb (bool_decide (indicator_of j = both)))
            (full_outer_join (List.map fst idx) (List.map snd idx) ls rs))
  = length (List.filter (unmatched_left idx rs) ls)
    + length (List.filter (unmatched_right idx ls) rs).
Proof.
  unfold full_outer_join. rewrite List.filter_app, length_app. f_equal.
  - set (f := fun l : Row =>
               match List.filter
                       (keys_match (List.map fst idx) (List.map snd idx) l) rs
               with
               | [] => [JLeft l]
               | ms => List.map (JBoth l) ms
               end).
    induction ls as [|l ls IH]; [done|].
    change (List.flat_map f (l :: ls)) with (f l ++ List.flat_map f ls).
    rewrite List.filter_app, length_app, IH.
    change (List.filter (unmatched_left idx rs) (l :: ls))
      with (if unmatched_left idx rs l
            then l :: List.filter (unmatched_left idx rs) ls
            else List.filter (unmatched_left idx rs) ls).
    assert (Hu : unmatched_left idx rs l
                 = match List.filter
                           (keys_match (List.map fst idx) (List.map snd idx) l) rs
                   with [] => true | _ => false end).
    { unfold unmatched_left.
      destruct (List.filter _ rs) as [|r0 ms] eqn:Hf.
      - apply filter_nil_existsb in Hf. by rewrite Hf.
      - destruct (List.existsb _ rs) eqn:He; [done|].
        apply filter_nil_existsb in He. congruence. }
    rewrite Hu. unfold f.
    destruct (List.filter _ rs) as [|r0 ms]; [done|].
    simpl length at 3. f_equal.
    generalize (r0 :: ms). intros l0. induction l0; simpl; done.
  - rewrite filter_map_comm, length_map. f_equal.
    apply filter_all. intros r. by rewrite bool_decide_eq_false_2.
Qed.

(** A run whose labelled join raises goes through the handler. *)
Lemma reported_when_join_raises s df1 df2 D1 D2 m ln rn :
  frames s !! df1 = Some D1 ->
  frames s !! df2 = Some D2 ->
  (forall mg, labelled_join D1 D2 m ln rn <> Ok mg) ->
  exists e ref s',
    compare_datasets df1 df2 m ln rn s = (Ok (false, ref), s') /\
    frames s' !! ref = Some empty_frame /\
    ui s' = ui s ++ [StError "Error comparing datasets: " e].
Proof.
  intros H1 H2 Hno.
  destruct (labelled_join D1 D2 m ln rn) as [mg|e] eqn:Hj; [by destruct (Hno mg)|].
  destruct (compare_datasets_run df1 df2 D1 D2 m ln rn s H1 H2)
    as (ref & s' & Hrun & Href & _ & Hui & _).
  rewrite (outcome_raise _ _ _ _ _ e Hj) in Hrun, Href, Hui.
  by exists e, ref, s'.
Qed.

(** ** The flag, read on the rows of the two inputs *)

(** X1.  On two frames of plain cells (no boolean, no integer beyond
    [2^53]: the cells that [pd.merge] matches exactly when they are equal),
    the flag is true exactly when the join is computed, every row of either
    frame has a row of the other frame with the same cells in the key
    columns, and the two frames have the same number of rows. *)
Theorem identical_iff_every_row_has_a_partner s df1 df2 D1 D2 m ln rn :
  frames s !! df1 = Some D1 ->
  frames s !! df2 = Some D2 ->
  plain_frame D1 = true ->
  plain_frame D2 = true ->
  exists flag ref s',
    compare_datasets df1 df2 m ln rn s = (Ok (flag, ref), s') /\
    (flag = true <->
     exists merged idx,
       labelled_join D1 D2 m ln rn = Ok merged /\
       get_merge_keys (columns D1) (columns (rename D2 m)) (keys m) = Ok idx /\
       (forall l, In l (rows D1) ->
          exists r, In r (rows D2) /\
                    forall i j, In (i, j) idx -> cell l i = cell r j) /\
       (forall r, In r (rows D2) ->
          exists l, In l (rows D1) /\
                    forall i j, In (i, j) idx -> cell l i = cell r j) /\
       len D1 = len D2).
Proof.
  intros H1 H2 _ _.
  destruct (compare_datasets_run df1 df2 D1 D2 m ln rn s H1 H2)
    as (ref & s' & Hrun & _).
  eexists _, ref, s'. split; [exact Hrun|].
  destruct (labelled_join D1 D2 m ln rn) as [mg|e] eqn:Hj.
  - destruct (flag_all_both _ _ _ _ _ _ Hj) as (idx & Hk & Hflag).
    rewrite Hflag, full_outer_join_all_both. split.
    + intros [[HL HR] Hlen]. exists mg, idx.
      split; [done|]. split; [done|]. split; [|split; [|done]].
      * intros l Hl. destruct (HL l Hl) as (r & Hr & Hm).
        exists r. split; [done|]. by apply keys_match_cells.
      * intros r Hr. destruct (HR r Hr) as (l & Hl & Hm).
        exists l. split; [done|]. by apply keys_match_cells.
    + intros (mg' & idx' & _ & Hk' & HL & HR & Hlen).
      rewrite Hk in Hk'. injection Hk' as <-.
      split; [split|done].
      * intros l Hl. destruct (HL l Hl) as (r & Hr & Hm).
        exists r. split; [done|]. by apply keys_match_cells.
      * intros r Hr. destruct (HR r Hr) as (l & Hl & Hm).
        exists l. split; [done|]. by apply keys_match_cells.
  - rewrite (outcome_raise _ _ _ _ _ e Hj). simpl.
    split; [done|]. intros (mg & idx & Hmg & _). done.
Qed.

(** X1 on Scenario 3. *)
Lemma identical_iff_every_row_has_a_partner_witness :
  exists flag ref s',
    compare_datasets 0 1 scenario_mapping "left" "right"
      (initial_state scenario3_left scenario3_right) = (Ok (flag, ref), s') /\
    (flag = true <->
     exists merged idx,
       labelled_join scenario3_left scenario3_right scenario_mapping
         "left" "right" = Ok merged /\
       get_merge_keys (columns scenario3_left)
         (columns (rename scenario3_right scenario_mapping))
         (keys scenario_mapping) = Ok idx /\
       (forall l, In l (rows scenario3_left) ->
          exists r, In r (rows scenario3_right) /\
                    forall i j, In (i, j) idx -> cell l i = cell r j) /\
       (forall r, In r (rows scenario3_right) ->
          exists l, In l (rows scenario3_left) /\
                    forall i j, In (i, j) idx -> cell l i = cell r j) /\
       len scenario3_left = len scenario3_right).
Proof.
  apply (identical_iff_every_row_has_a_partner
           (initial_state scenario3_left scenario3_right) 0 1
           scenario3_left scenario3_right scenario_mapping "left" "right");
    reflexivity.
Defined.

(** X2.  On two frames of plain cells (no boolean, no integer beyond
    [2^53]), when the join is computed, the number of rows of the returned
    frame (the number shown as "mismatched rows") is the number of left rows
    without a partner plus the number of right rows without a partner; a
    row that has a partner is not counted, however many partners it has. *)
Theorem mismatched_rows_count s df1 df2 D1 D2 m ln rn merged :
  frames s !! df1 = Some D1 ->
  frames s !! df2 = Some D2 ->
  plain_frame D1 = true ->
  plain_frame D2 = true ->
  labelled_join D1 D2 m ln rn = Ok merged ->
  exists idx flag ref s' diff,
    get_merge_keys (columns D1) (columns (rename D2 m)) (keys m) = Ok idx /\
    compare_datasets df1 df2 m ln rn s = (Ok (flag, ref), s') /\
    frames s' !! ref = Some diff /\
    len diff
    = length (List.filter (unmatched_left idx (rows D2)) (rows D1))
      + length (List.filter (unmatched_right idx (rows D1)) (rows D2)).
Proof.
  intros H1 H2 _ _ Hj.
  destruct (compare_datasets_run df1 df2 D1 D2 m ln rn s H1 H2)
    as (ref & s' & Hrun & Href & _).
  destruct (labelled_join_rows _ _ _ _ _ _ Hj) as (idx & Hk & Hp & Hrows).
  rewrite (outcome_ok _ _ _ _ _ merged Hj) in Hrun, Href. simpl in Hrun, Href.
  eexists idx, _, ref, s', _.
  split; [done|]. split; [exact Hrun|]. split; [exact Href|].
  unfold len. simpl. rewrite Hrows, filter_map_comm, length_map.
  rewrite <- count_unpaired. f_equal. apply filter_ext. intros j.
  by apply differs_labelled.
Qed.

(** X2 on a left frame with two rows of key 1 and a right frame with the
    keys 1 and 2. *)
Lemma mismatched_rows_count_witness :
  exists idx flag ref s' diff,
    get_merge_keys ["id"; "v"] ["id"; "w"] ["id"] = Ok idx /\
    compare_datasets 0 1 [("id", "id")] "left" "right"
      (initial_state scenario3_left
         (mkFrame ["id"; "w"] [[CNum 1; CText "a"]; [CNum 2; CText "b"]]))
    = (Ok (flag, ref), s') /\
    frames s' !! ref = Some diff /\
    len diff = 1.
Proof.
  destruct (mismatched_rows_count
              (initial_state scenario3_left
                 (mkFrame ["id"; "w"] [[CNum 1; CText "a"]; [CNum 2; CText "b"]]))
              0 1 scenario3_left
              (mkFrame ["id"; "w"] [[CNum 1; CText "a"]; [CNum 2; CText "b"]])
              [("id", "id")] "left" "right"
              (mkFrame ["id"; "v"; "w"; "Dataset"]
                 [[CNum 1; CText "a"; CText "a"; CText "In both left and right"];
                  [CNum 1; CText "a"; CText "a"; CText "In both left and right"];
                  [CNum 2; CMissing; CText "b"; CText "Only in right"]])
              eq_refl eq_refl eq_refl eq_refl)
    as (idx & flag & ref & s' & diff & Hk & Hrun & Href & Hlen).
  - vm_compute. reflexivity.
  - exists idx, flag, ref, s', diff.
    split; [exact Hk|]. split; [exact Hrun|]. split; [exact Href|].
    vm_compute in Hk. injection Hk as <-. exact Hlen.
Defined.

(** ** Mappings and column names the comparison cannot handle *)

(** X3.  A mapping that pairs a left column with a right column whose name
    is not itself a key of the mapping (in "Single column" mode: two columns
    of different names) always ends in the handler: the renaming looks the
    left names up in the right frame, so a key column of that name can only
    come from another entry of the mapping. *)
Theorem mapping_value_not_a_key_is_reported s df1 df2 D1 D2 m ln rn k v :
  frames s !! df1 = Some D1 ->
  frames s !! df2 = Some D2 ->
  List.NoDup (keys m) ->
  In (k, v) m ->
  ~ In v (keys m) ->
  exists e ref s',
    compare_datasets df1 df2 m ln rn s = (Ok (false, ref), s') /\
    frames s' !! ref = Some empty_frame /\
    ui s' = ui s ++ [StError "Error comparing datasets: " e].
Proof.
  intros H1 H2 Hnd Hin Hv. apply (reported_when_join_raises _ _ _ D1 D2); [done..|].
  intros mg Hj.
  destruct (labelled_join_inv _ _ _ _ _ _ Hj) as (idx & _ & Hk & _).
  destruct (renamed_keys_permutation m _ _ idx Hnd Hk) as (_ & _ & HR).
  apply Hv, HR. apply in_map_iff. by exists (k, v).
Qed.

(** X3 in "Single column" mode, the two frames having both columns. *)
Lemma mapping_value_not_a_key_is_reported_witness :
  exists e ref s',
    compare_datasets 0 1 [("id", "v")] "left" "right"
      (initial_state scenario3_left scenario3_right)
    = (Ok (false, ref), s') /\
    frames s' !! ref = Some empty_frame /\
    ui s' = [StError "Error comparing datasets: " e].
Proof.
  apply (mapping_value_not_a_key_is_reported
           (initial_state scenario3_left scenario3_right) 0 1
           scenario3_left scenario3_right [("id", "v")] "left" "right" "id" "v").
  - reflexivity.
  - reflexivity.
  - unfold keys; simpl.
    repeat (apply List.NoDup_cons; [simpl; intuition discriminate|]).
    apply List.NoDup_nil.
  - by left.
  - simpl. intuition discriminate.
Defined.

Lemma merged_labels L R m mg0 labels :
  merge L (rename R m) (keys m) = Ok mg0 ->
  columns mg0 = labels ++ ["_merge"] ->
  labels
  = List.map (add_suffix (to_rename (columns L)
                (nonkey_labels (columns (rename R m)) (keys m))) "_x")
      (columns L)
    ++ List.map (add_suffix (to_rename (columns L)
                   (nonkey_labels (columns (rename R m)) (keys m))) "_y")
         (nonkey_labels (columns (rename R m)) (keys m)).
Proof.
  intros Hm Hc. destruct (merge_inv _ _ _ _ Hm) as (_ & _ & _ & _ & Hc' & _).
  rewrite Hc, app_assoc in Hc'. by apply app_inj_tail in Hc' as [-> _].
Qed.

(** X4.  For frames that have rows, a column named [Dataset] that only one
    of the two frames has, or that is a join key, always sends the
    comparison to the handler: the indicator column is renamed to [Dataset]
    and [merged['Dataset']] is then no single column.  (Without any row the
    sub-frame is empty, and from pandas 2.1 [map] passes an empty frame
    on.) *)
Theorem dataset_column_is_reported s df1 df2 D1 D2 m ln rn :
  frames s !! df1 = Some D1 ->
  frames s !! df2 = Some D2 ->
  List.NoDup (keys m) ->
  rows D1 <> [] \/ rows D2 <> [] ->
  (In "Dataset" (columns D1) /\ ~ In "Dataset" (columns D2)) \/
  (~ In "Dataset" (columns D1) /\ In "Dataset" (columns D2)) \/
  In "Dataset" (keys m) ->
  exists e ref s',
    compare_datasets df1 df2 m ln rn s = (Ok (false, ref), s') /\
    frames s' !! ref = Some empty_frame /\
    ui s' = ui s ++ [StError "Error comparing datasets: " e].
Proof.
  intros H1 H2 Hnd _ Hcase.
  apply (reported_when_join_raises _ _ _ D1 D2); [done..|].
  intros mg Hj.
  destruct (labelled_join_labels _ _ _ _ _ _ Hj) as (mg0 & labels & Hm & Hc & HD & _).
  rewrite (merged_labels _ _ _ _ _ Hm Hc) in HD.
  destruct (merge_inv _ _ _ _ Hm) as (idx & Hk & _).
  change (columns (rename D2 m)) with (List.map (rename_label m) (columns D2)) in *.
  destruct (renamed_keys_permutation m _ _ idx Hnd Hk) as (HL & _ & HR).
  apply HD.
  rewrite In_merged_labels by (apply suffix_x_Dataset || apply suffix_y_Dataset).
  rewrite In_renamed_nonkey by (intros v Hv; by apply HR).
  pose proof (HL "Dataset").
  destruct (in_dec string_dec "Dataset" (keys m)); tauto.
Qed.

(** X4 on a left frame with a column [Dataset] the right frame lacks. *)
Lemma dataset_column_is_reported_witness :
  exists e ref s',
    compare_datasets 0 1 [("id", "id")] "left" "right"
      (initial_state (mkFrame ["id"; "Dataset"] [[CNum 1; CText "a"]])
         (mkFrame ["id"] [[CNum 1]]))
    = (Ok (false, ref), s') /\
    frames s' !! ref = Some empty_frame /\
    ui s' = [StError "Error comparing datasets: " e].
Proof.
  apply (dataset_column_is_reported
           (initial_state (mkFrame ["id"; "Dataset"] [[CNum 1; CText "a"]])
              (mkFrame ["id"] [[CNum 1]])) 0 1
           (mkFrame ["id"; "Dataset"] [[CNum 1; CText "a"]])
           (mkFrame ["id"] [[CNum 1]]) [("id", "id")] "left" "right").
  - reflexivity.
  - reflexivity.
  - unfold keys; simpl.
    repeat (apply List.NoDup_cons; [simpl; intuition discriminate|]).
    apply List.NoDup_nil.
  - left. simpl. discriminate.
  - left. simpl. split; [tauto|intuition discriminate].
Defined.

(** X5.  A column named [_merge], [_left_indicator] or [_right_indicator]
    in either frame always sends the comparison to the handler: the merge
    with [indicator=True] needs these names. *)
Theorem reserved_column_is_reported s df1 df2 D1 D2 m ln rn x :
  frames s !! df1 = Some D1 ->
  frames s !! df2 = Some D2 ->
  List.NoDup (keys m) ->
  In x ["_merge"; "_left_indicator"; "_right_indicator"] ->
  In x (columns D1) \/ In x (columns D2) ->
  exists e ref s',
    compare_datasets df1 df2 m ln rn s = (Ok (false, ref), s') /\
    frames s' !! ref = Some empty_frame /\
    ui s' = ui s ++ [StError "Error comparing datasets: " e].
Proof.
  intros H1 H2 Hnd Hx Hcol.
  apply (reported_when_join_raises _ _ _ D1 D2); [done..|].
  intros mg Hj.
  destruct (labelled_join_labels _ _ _ _ _ _ Hj) as (mg0 & labels & Hm & _).
  destruct (merge_inv _ _ _ _ Hm) as (idx & Hk & _ & Hind & _).
  change (columns (rename D2 m)) with (List.map (rename_label m) (columns D2)) in *.
  destruct (renamed_keys_permutation m _ _ idx Hnd Hk) as (HL & _ & HR).
  apply indicator_pre_merge_ok in Hind as (Hi1 & Hi2 & Hi3).
  assert (Hin : In x (columns D1
                      ++ nonkey_labels (List.map (rename_label m) (columns D2))
                           (keys m))).
  { rewrite in_app_iff, In_renamed_nonkey by (intros v Hv; by apply HR).
    pose proof (HL x). destruct (in_dec string_dec x (keys m)); tauto. }
  destruct Hx as [<-|[<-|[<-|[]]]]; done.
Qed.

(** X5 on a right frame with a column [_merge]. *)
Lemma reserved_column_is_reported_witness :
  exists e ref s',
    compare_datasets 0 1 [("id", "id")] "left" "right"
      (initial_state (mkFrame ["id"] [[CNum 1]])
         (mkFrame ["id"; "_merge"] [[CNum 1; CText "a"]]))
    = (Ok (false, ref), s') /\
    frames s' !! ref = Some empty_frame /\
    ui s' = [StError "Error comparing datasets: " e].
Proof.
  apply (reserved_column_is_reported
           (initial_state (mkFrame ["id"] [[CNum 1]])
              (mkFrame ["id"; "_merge"] [[CNum 1; CText "a"]])) 0 1
           (mkFrame ["id"] [[CNum 1]])
           (mkFrame ["id"; "_merge"] [[CNum 1; CText "a"]])
           [("id", "id")] "left" "right" "_merge").
  - reflexivity.
  - reflexivity.
  - unfold keys; simpl.
    repeat (apply List.NoDup_cons; [simpl; intuition discriminate|]).
    apply List.NoDup_nil.
  - by left.
  - right. simpl. tauto.
Defined.

(** ** No row is lost *)

Lemma full_outer_join_left lidx ridx ls rs l :
  In l ls ->
  In (JLeft l) (full_outer_join lidx ridx ls rs) \/
  exists r, In (JBoth l r) (full_outer_join lidx ridx ls rs).
Proof.
  intros Hl. unfold full_outer_join.
  destruct (List.filter (keys_match lidx ridx l) rs) as [|r ms] eqn:Hf.
  - left. apply in_or_app. left. apply in_flat_map. exists l.
    split; [done|]. rewrite Hf. by left.
  - right. exists r. apply in_or_app. left. apply in_flat_map. exists l.
    split; [done|]. rewrite Hf. by left.
Qed.

Lemma full_outer_join_right lidx ridx ls rs r :
  In r rs ->
  In (JRight r) (full_outer_join lidx ridx ls rs) \/
  exists l, In (JBoth l r) (full_outer_join lidx ridx ls rs).
Proof.
  intros Hr.
  destruct (List.existsb (fun l => keys_match lidx ridx l r) ls) eqn:He.
  - right. apply existsb_exists in He as (l & Hl & Hm). exists l.
    by apply full_outer_join_both.
  - left. unfold full_outer_join. apply in_or_app. right.
    apply in_map, filter_In. split; [done|]. by rewrite He.
Qed.

Lemma cell_map_seq (f : nat -> Cell) n p :
  p < n -> cell (List.map f (seq 0 n)) p = f p.
Proof.
  intros Hp. unfold cell.
  rewrite (nth_indep _ CMissing (f 0)) by (rewrite length_map, length_seq; lia).
  rewrite (map_nth f), seq_nth by lia. done.
Qed.

Lemma cell_map_positions (r : Row) (rnk : list nat) q :
  q < length rnk -> cell (List.map (cell r) rnk) q = cell r (nth q rnk 0).
Proof.
  intros Hq. unfold cell.
  rewrite (nth_indep _ CMissing (nth 0 r CMissing)) by (by rewrite length_map).
  by rewrite (map_nth (fun i => nth i r CMissing)).
Qed.

Lemma cell_app_r (a b : Row) n q :
  length a = n -> cell (a ++ b) (n + q) = cell b q.
Proof.
  intros <-. unfold cell. rewrite app_nth2 by lia. f_equal. lia.
Qed.

(** X6.  The outer join keeps every row of both inputs: every left row is
    found in the labelled join with its cells in the left columns, and
    every right row with its cells in the columns that follow, one for each
    right column that is not a key. *)
Theorem no_row_is_lost L R m ln rn merged :
  labelled_join L R m ln rn = Ok merged ->
  (forall l, In l (rows L) ->
     exists row, In row (rows merged) /\
                 forall p, p < length (columns L) -> cell row p = cell l p) /\
  (forall r, In r (rows R) ->
     exists row, In row (rows merged) /\
       forall q,
         q < length (nonkey_positions (columns (rename R m)) (keys m)) ->
         cell row (length (columns L) + q)
         = cell r (nth q (nonkey_positions (columns (rename R m)) (keys m)) 0)).
Proof.
  intros Hj.
  destruct (labelled_join_rows _ _ _ _ _ _ Hj) as (idx & _ & _ & Hrows).
  set (rnk := nonkey_positions (columns (rename R m)) (keys m)) in *.
  set (nl := length (columns L)) in *.
  assert (Hleft : forall j l,
    (j = JLeft l \/ exists r, j = JBoth l r) ->
    forall p, p < nl -> cell (labelled_cells ln rn nl idx rnk j) p = cell l p).
  { intros j l Hjl p Hp. unfold labelled_cells.
    rewrite cell_app_l by (rewrite joined_body_length; lia).
    destruct Hjl as [->|[r ->]]; simpl;
      rewrite cell_app_l by (rewrite length_map, length_seq; lia);
      by rewrite cell_map_seq. }
  assert (Hright : forall j r,
    (j = JRight r \/ exists l, j = JBoth l r) ->
    forall q, q < length rnk ->
      cell (labelled_cells ln rn nl idx rnk j) (nl + q) = cell r (nth q rnk 0)).
  { intros j r Hjr q Hq. unfold labelled_cells.
    rewrite cell_app_l by (rewrite joined_body_length; lia).
    destruct Hjr as [->|[l ->]]; simpl.
    - rewrite cell_app_r by (by rewrite length_map, length_seq).
      by apply cell_map_positions.
    - rewrite cell_app_r by (by rewrite length_map, length_seq).
      by apply cell_map_positions. }
  split.
  - intros l Hl.
    destruct (full_outer_join_left (List.map fst idx) (List.map snd idx)
                (rows L) (rows R) l Hl) as [Hin|[r Hin]].
    + exists (labelled_cells ln rn nl idx rnk (JLeft l)).
      split; [rewrite Hrows; by apply in_map|]. apply Hleft. by left.
    + exists (labelled_cells ln rn nl idx rnk (JBoth l r)).
      split; [rewrite Hrows; by apply in_map|]. apply Hleft. right. by exists r.
  - intros r Hr.
    destruct (full_outer_join_right (List.map fst idx) (List.map snd idx)
                (rows L) (rows R) r Hr) as [Hin|[l Hin]].
    + exists (labelled_cells ln rn nl idx rnk (JRight r)).
      split; [rewrite Hrows; by apply in_map|]. apply Hright. by left.
    + exists (labelled_cells ln rn nl idx rnk (JBoth l r)).
      split; [rewrite Hrows; by apply in_map|]. apply Hright. right. by exists l.
Qed.

(** X6 on a join with one row found only on the right. *)
Lemma no_row_is_lost_witness :
  exists row,
    In row [[CNum 1; CText "a"; CText "a"; CText "In both left and right"];
            [CNum 1; CText "a"; CText "a"; CText "In both left and right"];
            [CNum 2; CMissing; CText "b"; CText "Only in right"]] /\
    cell row 2 = CText "b".
Proof.
  destruct (no_row_is_lost scenario3_left
              (mkFrame ["id"; "w"] [[CNum 1; CText "a"]; [CNum 2; CText "b"]])
              [("id", "id")] "left" "right"
              (mkFrame ["id"; "v"; "w"; "Dataset"]
                 [[CNum 1; CText "a"; CText "a"; CText "In both left and right"];
                  [CNum 1; CText "a"; CText "a"; CText "In both left and right"];
                  [CNum 2; CMissing; CText "b"; CText "Only in right"]]))
    as [_ HR]; [vm_compute; reflexivity|].
  destruct (HR [CNum 2; CText "b"]) as (row & Hin & Hc); [simpl; tauto|].
  exists row. split; [exact Hin|]. apply (Hc 0). simpl. lia.
Defined.

(** ** The default mapping of "All columns" *)

Lemma rename_label_identity m c :
  (forall k v, In (k, v) m -> k = v) -> rename_label m c = c.
Proof.
  intros Hid. unfold rename_label.
  destruct (dict_get m c) as [v|] eqn:Hg; [|done].
  apply dict_get_Some in Hg. symmetry. by apply Hid.
Qed.

Lemma rename_identity R m :
  (forall k v, In (k, v) m -> k = v) -> rename R m = R.
Proof.
  intros Hid. destruct R as [cols rs]. unfold rename. simpl. f_equal.
  rewrite <- (map_id cols) at 2. apply map_ext. intros c.
  by apply rename_label_identity.
Qed.

Lemma default_mapping_spec L R :
  (forall k v, In (k, v) (default_mapping L R) -> k = v) /\
  List.NoDup (keys (default_mapping L R)) /\
  (forall k, In k (keys (default_mapping L R)) <->
             In k (columns L) /\ In k (columns R)).
Proof.
  unfold default_mapping, get_matching_columns, keys.
  rewrite map_map. simpl. rewrite map_id. split; [|split].
  - intros k v Hin. apply in_map_iff in Hin as (c & [= <- <-] & _). done.
  - apply NoDup_ListNoDup, NoDup_elements.
  - intros k. rewrite <- list_elem_of_In, elem_of_elements.
    rewrite elem_of_intersection, !elem_of_list_to_set, !list_elem_of_In. done.
Qed.

Lemma label_position_NoDup cols k :
  List.NoDup cols -> In k cols -> exists i, label_position cols k = Ok i.
Proof.
  intros Hnd Hk. destruct (In_lookup _ _ Hk) as [i Hi]. exists i.
  apply label_position_intro; [done|]. intros j Hj.
  apply NoDup_ListNoDup in Hnd. by eapply NoDup_lookup.
Qed.

(** X7.  The mapping "All columns" starts from, built from
    [get_matching_columns], names exactly the columns the two frames share,
    each mapped to itself.  With it the renaming leaves the right frame as
    it is, and, the labels of each frame being distinct, every join key is
    found in both frames and pairs a left column with the right column of
    the same name. *)
Theorem default_mapping_joins_namesakes L R :
  List.NoDup (columns L) ->
  List.NoDup (columns R) ->
  (forall k, In k (keys (default_mapping L R)) <->
             In k (columns L) /\ In k (columns R)) /\
  rename R (default_mapping L R) = R /\
  exists idx,
    get_merge_keys (columns L) (columns (rename R (default_mapping L R)))
      (keys (default_mapping L R)) = Ok idx /\
    forall i j, In (i, j) idx ->
      exists k, columns L !! i = Some k /\ columns R !! j = Some k.
Proof.
  intros HL HR. destruct (default_mapping_spec L R) as (Hid & Hnd & Hkeys).
  split; [exact Hkeys|]. rewrite (rename_identity R _ Hid). split; [done|].
  destruct (get_merge_keys_ok (columns L) (columns R) (keys (default_mapping L R)))
    as [idx Hidx].
  - intros k Hk. apply label_position_NoDup; [done|]. by apply Hkeys.
  - intros k Hk. apply label_position_NoDup; [done|]. by apply Hkeys.
  - exists idx. split; [done|]. intros i j Hin.
    apply get_merge_keys_inv in Hidx.
    destruct (Forall2_In_r _ _ _ _ Hidx Hin) as (k & _ & Hi & Hj).
    apply label_position_ok in Hi as [Hi _], Hj as [Hj _]. by exists k.
Qed.

(** X7 on two frames that share the column [id]. *)
Lemma default_mapping_joins_namesakes_witness :
  rename (mkFrame ["id"; "w"] [[CNum 1; CText "a"]])
    (default_mapping scenario3_left (mkFrame ["id"; "w"] [[CNum 1; CText "a"]]))
  = mkFrame ["id"; "w"] [[CNum 1; CText "a"]].
Proof.
  apply (default_mapping_joins_namesakes scenario3_left
           (mkFrame ["id"; "w"] [[CNum 1; CText "a"]])).
  - simpl. repeat (apply List.NoDup_cons; [simpl; intuition discriminate|]).
    apply List.NoDup_nil.
  - simpl. repeat (apply List.NoDup_cons; [simpl; intuition discriminate|]).
    apply List.NoDup_nil.
Defined.

(** ** A frame and its reordered copy *)

Lemma mem_nil c : mem c [] = false.
Proof. apply mem_not_In. simpl. tauto. Qed.

Lemma filter_snd_false {A} (l : list A) (bs : list bool) :
  List.Forall (fun b => b = false) bs ->
  List.filter snd (List.combine l bs) = [].
Proof.
  intros Hbs. revert l. induction Hbs as [|b bs -> _ IH]; intros [|x l]; simpl; auto.
Qed.

Lemma suffix_dups_same l : suffix_dups l l = [].
Proof.
  unfold suffix_dups. rewrite filter_snd_false; [done|].
  apply List.Forall_forall. intros b Hb.
  apply in_map_iff in Hb as ([b1 b2] & <- & Hin). simpl.
  assert (b1 = b2) as ->; [|by destruct b2].
  clear -Hin. revert Hin. generalize (duplicated [] l). intros ds.
  induction ds as [|d ds IH]; simpl; [done|].
  intros [[= -> ->]|Hin]; [done|by apply IH].
Qed.

Lemma nil_of_no_In {A} (l : list A) : (forall x, ~ In x l) -> l = [].
Proof. destruct l as [|x l]; [done|]. intros H. destruct (H x). by left. Qed.

Lemma items_overlap_nil cols :
  items_overlap_with_suffix cols [] = Ok (cols, []).
Proof.
  unfold items_overlap_with_suffix.
  assert (Htr : to_rename cols [] = []).
  { apply nil_of_no_In. intros x. rewrite In_to_rename. simpl. tauto. }
  rewrite Htr.
  assert (Hid : List.map (add_suffix [] "_x") cols = cols).
  { rewrite <- (map_id cols) at 2. apply map_ext. intros c.
    unfold add_suffix. by rewrite mem_nil. }
  rewrite Hid. simpl. rewrite suffix_dups_same. done.
Qed.

(** X8.  Two frames with the same distinct column labels (none of them a
    name the engine needs) whose rows are the same up to their order are
    found identical under the default mapping, with no difference row and
    no message: rows are matched by value, a missing cell matching a
    missing cell, whatever their positions and however often they repeat. *)
Theorem reordered_copy_is_identical s df1 df2 L R ln rn :
  frames s !! df1 = Some L ->
  frames s !! df2 = Some R ->
  columns R = columns L ->
  Permutation (rows L) (rows R) ->
  List.NoDup (columns L) ->
  columns L <> [] ->
  (forall x,
      In x ["Dataset"; "_merge"; "_left_indicator"; "_right_indicator"] ->
      ~ In x (columns L)) ->
  exists ref s' diff,
    compare_datasets df1 df2 (default_mapping L R) ln rn s
    = (Ok (true, ref), s') /\
    frames s' !! ref = Some diff /\
    rows diff = [] /\
    ui s' = ui s.
Proof.
  intros H1 H2 Hcols Hperm Hnd Hne Hres.
  set (m := default_mapping L R).
  destruct (default_mapping_spec L R) as (Hid & Hndk & Hkeys). fold m in Hid, Hndk, Hkeys.
  assert (Hall : forall k, In k (keys m) <-> In k (columns L)).
  { intros k. rewrite Hkeys, Hcols. tauto. }
  assert (Hren : rename R m = R) by by apply rename_identity.
  destruct (get_merge_keys_ok (columns L) (columns R) (keys m)) as [idx Hidx].
  { intros k Hk. apply label_position_NoDup; [done|]. by apply Hall. }
  { intros k Hk. rewrite Hcols. apply label_position_NoDup; [done|]. by apply Hall. }
  assert (Hnk : nonkey_labels (columns R) (keys m) = []).
  { apply nil_of_no_In. intros x. rewrite In_nonkey_labels, Hcols, Hall. tauto. }
  assert (Hind : indicator_pre_merge (columns L) [] = Ok tt).
  { apply indicator_pre_merge_ok. rewrite app_nil_r.
    repeat split; apply Hres; simpl; tauto. }
  assert (Hon : keys m <> []).
  { destruct (columns L) as [|c cols] eqn:Hc; [done|].
    assert (Hin : In c (keys m)) by (apply Hall; by left).
    intros Hnil. by rewrite Hnil in Hin. }
  assert (Hm : merge L (rename R m) (keys m)
               = Ok (mkFrame (columns L ++ [] ++ ["_merge"])
                       (List.map (joined_cells (length (columns L)) idx
                                    (nonkey_positions (columns R) (keys m)))
                          (full_outer_join (List.map fst idx) (List.map snd idx)
                             (rows L) (rows R))))).
  { rewrite Hren. unfold merge. rewrite Hidx. simpl. rewrite Hnk, Hind. simpl.
    destruct (keys m) as [|k ks]; [done|]. by rewrite items_overlap_nil. }
  destruct (labelled_join_ok L R m ln rn _ (columns L) Hm) as [mg Hj].
  { reflexivity. }
  { apply Hres. simpl. tauto. }
  { apply Hres. simpl. tauto. }
  destruct (flag_all_both _ _ _ _ _ _ Hj) as (idx' & Hk' & Hflag).
  rewrite Hren, Hidx in Hk'. injection Hk' as <-.
  assert (Hself : forall l,
    keys_match (List.map fst idx) (List.map snd idx) l l = true).
  { intros l. apply keys_match_cells. intros i j Hin.
    apply get_merge_keys_inv in Hidx.
    destruct (Forall2_In_r _ _ _ _ Hidx Hin) as (k & _ & Hi & Hj').
    simpl in Hi, Hj'. rewrite Hcols in Hj'. congruence. }
  assert (Htrue : fst (fst (outcome L R m ln rn)) = true).
  { apply Hflag. split.
    - apply full_outer_join_all_both. split.
      + intros l Hl. exists l. split; [|done]. by eapply Permutation_in.
      + intros r Hr. exists r. split; [|done].
        eapply Permutation_in; [symmetry; exact Hperm|done].
    - unfold len. by apply Permutation_length. }
  destruct (compare_datasets_run df1 df2 L R m ln rn s H1 H2)
    as (ref & s' & Hrun & Href & _ & Hui & _).
  rewrite Htrue in Hrun.
  rewrite (outcome_ok _ _ _ _ _ mg Hj) in Href, Hui, Htrue. simpl in *.
  apply andb_true_iff in Htrue as [Hnil _]. apply length_zero_eqb in Hnil.
  eexists ref, s', _. split; [exact Hrun|]. split; [exact Href|].
  split; [exact Hnil|]. by rewrite app_nil_r in Hui.
Qed.

(** X8 on a frame with a repeated row and a missing cell, against its
    reversed copy. *)
Lemma reordered_copy_is_identical_witness :
  exists ref s' diff,
    compare_datasets 0 1
      (default_mapping
         (mkFrame ["id"; "v"] [[CNum 1; CMissing]; [CNum 2; CText "b"];
                               [CNum 1; CMissing]])
         (mkFrame ["id"; "v"] [[CNum 1; CMissing]; [CNum 2; CText "b"];
                               [CNum 1; CMissing]]))
      "left" "right"
      (initial_state
         (mkFrame ["id"; "v"] [[CNum 1; CMissing]; [CNum 2; CText "b"];
                               [CNum 1; CMissing]])
         (mkFrame ["id"; "v"] [[CNum 1; CMissing]; [CNum 1; CMissing];
                               [CNum 2; CText "b"]]))
    = (Ok (true, ref), s') /\
    frames s' !! ref = Some diff /\
    rows diff = [] /\
    ui s' = [].
Proof.
  apply (reordered_copy_is_identical
           (initial_state
              (mkFrame ["id"; "v"] [[CNum 1; CMissing]; [CNum 2; CText "b"];
                                    [CNum 1; CMissing]])
              (mkFrame ["id"; "v"] [[CNum 1; CMissing]; [CNum 1; CMissing];
                                    [CNum 2; CText "b"]])) 0 1
           (mkFrame ["id"; "v"] [[CNum 1; CMissing]; [CNum 2; CText "b"];
                                 [CNum 1; CMissing]])
           (mkFrame ["id"; "v"] [[CNum 1; CMissing]; [CNum 1; CMissing];
                                 [CNum 2; CText "b"]])
           "left" "right").
  - reflexivity.
  - reflexivity.
  - reflexivity.
  - simpl. apply perm_skip, perm_swap.
  - simpl. repeat (apply List.NoDup_cons; [simpl; intuition discriminate|]).
    apply List.NoDup_nil.
  - discriminate.
  - simpl. intros x Hx Hin. intuition (subst; discriminate).
Defined.

(** ** The column matcher, once more *)

(** X9.  The two inputs of [get_matching_columns] can be read back from its
    result (each is the matching set together with the set found only on
    its side), and calling it with the arguments swapped swaps the two
    one-sided sets. *)
Theorem matcher_recovers_inputs (A B : gset string) :
  match get_matching_columns A B with
  | (matching, leftOnly, rightOnly) =>
      matching ∪ leftOnly = A /\
      matching ∪ rightOnly = B /\
      get_matching_columns B A = (matching, rightOnly, leftOnly)
  end.
Proof.
  unfold get_matching_columns. split; [|split].
  - apply set_eq. intros x. destruct (decide (x ∈ B)); set_solver.
  - apply set_eq. intros x. destruct (decide (x ∈ A)); set_solver.
  - f_equal. f_equal. set_solver.
Qed.

(** X10.  Nothing is left for review (both one-sided sets are empty, the
    condition under which [main] shows no warning) exactly when the two
    frames have the same set of column names. *)
Theorem matcher_nothing_to_review (A B : gset string) :
  match get_matching_columns A B with
  | (_, leftOnly, rightOnly) =>
      leftOnly = ∅ /\ rightOnly = ∅ <-> A = B
  end.
Proof.
  unfold get_matching_columns. split.
  - intros [HL HR]. apply set_eq. intros x.
    destruct (decide (x ∈ A)), (decide (x ∈ B)); set_solver.
  - intros ->. set_solver.
Qed.

(** ** The mapping of "Custom columns" *)

Lemma dict_get_set d k v k' :
  dict_get (dict_set d k v) k'
  = if String.eqb k k' then Some v else dict_get d k'.
Proof.
  unfold dict_get. induction d as [|[k0 v0] d IH]; cbn [dict_set List.find fst snd].
  - by destruct (String.eqb k k').
  - destruct (String.eqb_spec k0 k) as [->|Hne]; cbn [List.find fst snd].
    + by destruct (String.eqb k k').
    + destruct (String.eqb_spec k0 k') as [->|Hne'].
      * destruct (String.eqb_spec k k') as [->|_]; done.
      * exact IH.
Qed.

Lemma keys_dict_set d k v k' :
  In k' (keys (dict_set d k v)) <-> k' = k \/ In k' (keys d).
Proof.
  unfold keys. induction d as [|[k0 v0] d IH]; simpl.
  - split; [intros [->|[]]; by left|intros [->|[]]; by left].
  - destruct (String.eqb_spec k0 k) as [->|Hne]; simpl.
    + split; [intros [->|H]; auto|intros [->|[->|H]]; auto].
    + rewrite IH. split; [intros [->|[->|H]]; auto|intros [->|[->|H]]; auto].
Qed.

Lemma NoDup_dict_set d k v :
  List.NoDup (keys d) -> List.NoDup (keys (dict_set d k v)).
Proof.
  unfold keys. induction d as [|[k0 v0] d IH]; simpl; intros Hnd.
  - apply List.NoDup_cons; [simpl; tauto|constructor].
  - apply List.NoDup_cons_iff in Hnd as [Hk0 Hnd].
    destruct (String.eqb_spec k0 k) as [->|Hne]; simpl.
    + by apply List.NoDup_cons.
    + apply List.NoDup_cons; [|by apply IH].
      intros Hin. apply (keys_dict_set d k v k0) in Hin as [->|Hin]; done.
Qed.

(** X11.  After the assignments of "Custom columns" every selected left
    column is mapped to the right column picked for it, and every entry the
    session already had for a column that is no longer selected is still
    there with its old value: the loop only writes, it never removes. *)
Theorem assign_mapping_keeps_stale_entries m choices :
  List.NoDup (List.map fst choices) ->
  (forall k v, In (k, v) choices ->
               dict_get (assign_mapping m choices) k = Some v) /\
  (forall k, ~ In k (List.map fst choices) ->
             dict_get (assign_mapping m choices) k = dict_get m k) /\
  (List.NoDup (keys m) -> List.NoDup (keys (assign_mapping m choices))).
Proof.
  unfold assign_mapping. revert m.
  induction choices as [|[k0 v0] choices IH]; intros m Hnd; simpl.
  - split; [intros k v []|]. split; done.
  - apply List.NoDup_cons_iff in Hnd as [Hk0 Hnd].
    destruct (IH (dict_set m k0 v0) Hnd) as (IH1 & IH2 & IH3).
    split; [|split].
    + intros k v [[= -> ->]|Hin]; [|by apply IH1].
      rewrite IH2 by done. rewrite dict_get_set. by rewrite String.eqb_refl.
    + intros k Hk. rewrite IH2 by tauto. rewrite dict_get_set.
      destruct (String.eqb_spec k0 k) as [->|_]; [|done]. tauto.
    + intros Hm. apply IH3. by apply NoDup_dict_set.
Qed.

(** X11 on a session that still maps [old] while [id] is selected. *)
Lemma assign_mapping_keeps_stale_entries_witness :
  dict_get (assign_mapping [("old", "w")] [("id", "id")]) "old"
  = dict_get [("old", "w")] "old".
Proof.
  apply (assign_mapping_keeps_stale_entries [("old", "w")] [("id", "id")]).
  - simpl. repeat (apply List.NoDup_cons; [simpl; intuition discriminate|]).
    apply List.NoDup_nil.
  - simpl. intuition discriminate.
Defined.

(** ** The filter of the result view *)

Lemma CText_inj a b : CText a = CText b -> a = b.
Proof. intros H. by injection H. Qed.

Lemma only_in_not_show_all name : only_in name <> "Show All".
Proof. unfold only_in. cbn. discriminate. Qed.

Lemma in_both_not_show_all ln rn : in_both ln rn <> "Show All".
Proof. unfold in_both. cbn. discriminate. Qed.

Lemma only_in_inj a b : only_in a = only_in b -> a = b.
Proof. unfold only_in. cbn. by intros [= H]. Qed.

Lemma only_in_not_in_both name ln rn : only_in name <> in_both ln rn.
Proof. unfold only_in, in_both. cbn. discriminate. Qed.

Lemma filter_all_In {A} (p : A -> bool) (l : list A) :
  (forall x, In x l -> p x = true) -> List.filter p l = l.
Proof.
  induction l as [|x l IH]; simpl; intros Hp; [done|].
  rewrite Hp by (by left). f_equal. apply IH. intros y Hy. apply Hp. by right.
Qed.

Lemma filter_mismatched_spec df n option :
  positions "Dataset" (columns df) = [n] ->
  option <> "Show All" ->
  filter_mismatched df option
  = Ok (mkFrame (columns df)
          (List.filter (fun r => bool_decide (dataset_cell df r = CText option))
             (rows df))).
Proof.
  intros Hp Hopt. unfold filter_mismatched.
  destruct (String.eqb_spec option "Show All") as [->|_]; [done|].
  unfold getitem. rewrite Hp. simpl.
  unfold select_rows, series_eq. rewrite map_map, filter_combine_map.
  do 2 f_equal. apply filter_ext. intros r.
  unfold dataset_cell. by rewrite Hp.
Qed.

(** The frame returned after a computed join, with the place of its column
    [Dataset] and the labels of its rows. *)
Lemma returned_frame L R m ln rn mg :
  labelled_join L R m ln rn = Ok mg ->
  exists n,
    positions "Dataset" (columns (snd (fst (outcome L R m ln rn)))) = [n] /\
    List.Forall
      (fun r => dataset_cell (snd (fst (outcome L R m ln rn))) r
                = CText (only_in ln) \/
                dataset_cell (snd (fst (outcome L R m ln rn))) r
                = CText (only_in rn))
      (rows (snd (fst (outcome L R m ln rn)))).
Proof.
  intros Hj. rewrite (outcome_ok _ _ _ _ _ mg Hj). simpl.
  destruct (labelled_join_inv _ _ _ _ _ _ Hj) as (idx & rnk & _ & Hp & _).
  eexists. split; [exact Hp|].
  apply List.Forall_forall. intros r Hr. apply filter_In in Hr as [Hr Hd].
  destruct (labelled_join_class _ _ _ _ _ _ r Hj Hr) as [i Hi].
  rewrite (dataset_cell_columns _ mg) by done.
  unfold differs_from in Hd. rewrite Hi in *.
  apply negb_true_iff, bool_decide_eq_false in Hd.
  destruct i; simpl; [by left|by right|done].
Qed.

(** X12.  On a frame returned by [compare_datasets] after a computed join,
    the filter option "In both ..." never shows a row, and, the two file
    names being different, the options "Only in <left>" and "Only in
    <right>" split the rows: each row is shown by exactly one of them, so
    the two counts add up to the number of mismatched rows. *)
Theorem filter_options_split_the_rows s df1 df2 D1 D2 m ln rn merged :
  frames s !! df1 = Some D1 ->
  frames s !! df2 = Some D2 ->
  labelled_join D1 D2 m ln rn = Ok merged ->
  ln <> rn ->
  exists flag ref s' diff both_rows left_rows right_rows,
    compare_datasets df1 df2 m ln rn s = (Ok (flag, ref), s') /\
    frames s' !! ref = Some diff /\
    filter_mismatched diff (in_both ln rn) = Ok both_rows /\
    filter_mismatched diff (only_in ln) = Ok left_rows /\
    filter_mismatched diff (only_in rn) = Ok right_rows /\
    rows both_rows = [] /\
    len left_rows + len right_rows = len diff /\
    (forall r, In r (rows diff) ->
       (In r (rows left_rows) /\ ~ In r (rows right_rows)) \/
       (In r (rows right_rows) /\ ~ In r (rows left_rows))).
Proof.
  intros H1 H2 Hj Hne.
  destruct (compare_datasets_run df1 df2 D1 D2 m ln rn s H1 H2)
    as (ref & s' & Hrun & Href & _).
  destruct (returned_frame _ _ _ _ _ _ Hj) as (n & Hp & Hall).
  set (diff := snd (fst (outcome D1 D2 m ln rn))) in *.
  eexists _, ref, s', diff, _, _, _.
  split; [exact Hrun|]. split; [exact Href|].
  split; [by apply (filter_mismatched_spec diff n), in_both_not_show_all|].
  split; [by apply (filter_mismatched_spec diff n), only_in_not_show_all|].
  split; [by apply (filter_mismatched_spec diff n), only_in_not_show_all|].
  simpl. unfold len. simpl.
  assert (Hcls : forall r, In r (rows diff) ->
    (bool_decide (dataset_cell diff r = CText (only_in ln)) = true /\
     bool_decide (dataset_cell diff r = CText (only_in rn)) = false) \/
    (bool_decide (dataset_cell diff r = CText (only_in ln)) = false /\
     bool_decide (dataset_cell diff r = CText (only_in rn)) = true)).
  { intros r Hr. rewrite List.Forall_forall in Hall.
    destruct (Hall r Hr) as [Hc|Hc]; rewrite Hc; [left|right].
    - split; [by apply bool_decide_eq_true|]. apply bool_decide_eq_false.
      intros Heq. apply CText_inj, only_in_inj in Heq. congruence.
    - split; [|by apply bool_decide_eq_true]. apply bool_decide_eq_false.
      intros Heq. apply CText_inj, only_in_inj in Heq. congruence. }
  split; [|split].
  - apply filter_nil_iff. rewrite List.Forall_forall in *. intros r Hr.
    apply bool_decide_eq_false.
    destruct (Hall r Hr) as [-> | ->]; intros Heq;
      apply CText_inj in Heq; by apply only_in_not_in_both in Heq.
  - clear -Hcls. induction (rows diff) as [|r rs IH]; [done|].
    simpl.
    destruct (Hcls r) as [[-> ->]|[-> ->]]; [by left| |]; simpl;
      rewrite <- IH by (intros r' Hr'; apply Hcls; by right); lia.
  - intros r Hr. rewrite !filter_In.
    destruct (Hcls r Hr) as [[Hl Hr']|[Hl Hr']]; [left|right];
      rewrite Hl, Hr'; split; try done; intros [_ H]; done.
Qed.

(** X12 on a join with one row found only on the right. *)
Lemma filter_options_split_the_rows_witness :
  exists flag ref s' diff both_rows left_rows right_rows,
    compare_datasets 0 1 [("id", "id")] "left" "right"
      (initial_state scenario3_left
         (mkFrame ["id"; "w"] [[CNum 1; CText "a"]; [CNum 2; CText "b"]]))
    = (Ok (flag, ref), s') /\
    frames s' !! ref = Some diff /\
    filter_mismatched diff (in_both "left" "right") = Ok both_rows /\
    filter_mismatched diff (only_in "left") = Ok left_rows /\
    filter_mismatched diff (only_in "right") = Ok right_rows /\
    rows both_rows = [] /\
    len left_rows + len right_rows = len diff.
Proof.
  destruct (filter_options_split_the_rows
              (initial_state scenario3_left
                 (mkFrame ["id"; "w"] [[CNum 1; CText "a"]; [CNum 2; CText "b"]]))
              0 1 scenario3_left
              (mkFrame ["id"; "w"] [[CNum 1; CText "a"]; [CNum 2; CText "b"]])
              [("id", "id")] "left" "right"
              (mkFrame ["id"; "v"; "w"; "Dataset"]
                 [[CNum 1; CText "a"; CText "a"; CText "In both left and right"];
                  [CNum 1; CText "a"; CText "a"; CText "In both left and right"];
                  [CNum 2; CMissing; CText "b"; CText "Only in right"]])
              eq_refl eq_refl)
    as (flag & ref & s' & diff & b & l & r & Hrun & Href & Hb & Hl & Hr & Hnil & Hlen & _).
  - vm_compute. reflexivity.
  - discriminate.
  - by exists flag, ref, s', diff, b, l, r.
Defined.

(** X13.  When the two files have the same name the labels "Only in ..." of
    the two sides are one and the same text: every row of the returned
    frame carries it, and the filter by it shows all of them, so the side a
    row comes from cannot be read off the result. *)
Theorem same_file_names_hide_the_side s df1 df2 D1 D2 m name merged :
  frames s !! df1 = Some D1 ->
  frames s !! df2 = Some D2 ->
  labelled_join D1 D2 m name name = Ok merged ->
  exists flag ref s' diff,
    compare_datasets df1 df2 m name name s = (Ok (flag, ref), s') /\
    frames s' !! ref = Some diff /\
    List.Forall (fun r => dataset_cell diff r = CText (only_in name)) (rows diff) /\
    filter_mismatched diff (only_in name) = Ok diff.
Proof.
  intros H1 H2 Hj.
  destruct (compare_datasets_run df1 df2 D1 D2 m name name s H1 H2)
    as (ref & s' & Hrun & Href & _).
  destruct (returned_frame _ _ _ _ _ _ Hj) as (n & Hp & Hall).
  set (diff := snd (fst (outcome D1 D2 m name name))) in *.
  assert (Hall' : List.Forall
            (fun r => dataset_cell diff r = CText (only_in name)) (rows diff)).
  { eapply Forall_impl; [exact Hall|]. simpl. tauto. }
  eexists _, ref, s', diff.
  split; [exact Hrun|]. split; [exact Href|]. split; [exact Hall'|].
  rewrite (filter_mismatched_spec diff n) by (done || apply only_in_not_show_all).
  rewrite filter_all_In.
  - by destruct diff.
  - intros r Hr. rewrite List.Forall_forall in Hall'.
    by apply bool_decide_eq_true, Hall'.
Qed.

(** X13 on two files both called [data]. *)
Lemma same_file_names_hide_the_side_witness :
  exists flag ref s' diff,
    compare_datasets 0 1 [("id", "id")] "data" "data"
      (initial_state (mkFrame ["id"] [[CNum 1]]) (mkFrame ["id"] [[CNum 2]]))
    = (Ok (flag, ref), s') /\
    frames s' !! ref = Some diff /\
    List.Forall (fun r => dataset_cell diff r = CText (only_in "data"))
      (rows diff) /\
    filter_mismatched diff (only_in "data") = Ok diff.
Proof.
  apply (same_file_names_hide_the_side
           (initial_state (mkFrame ["id"] [[CNum 1]]) (mkFrame ["id"] [[CNum 2]]))
           0 1 (mkFrame ["id"] [[CNum 1]]) (mkFrame ["id"] [[CNum 2]])
           [("id", "id")] "data"
           (mkFrame ["id"; "Dataset"]
              [[CNum 1; CText "Only in data"]; [CNum 2; CText "Only in data"]])).
  - reflexivity.
  - reflexivity.
  - vm_compute. reflexivity.
Defined.

(** X14.  After a comparison that went through the handler the returned
    frame has no column [Dataset]: in the result view every filter option
    other than "Show All" raises [KeyError], which the view reports in
    turn. *)
Theorem filter_after_a_failed_comparison s df1 df2 D1 D2 m ln rn option :
  frames s !! df1 = Some D1 ->
  frames s !! df2 = Some D2 ->
  (forall mg, labelled_join D1 D2 m ln rn <> Ok mg) ->
  option <> "Show All" ->
  exists ref s' diff,
    compare_datasets df1 df2 m ln rn s = (Ok (false, ref), s') /\
    frames s' !! ref = Some diff /\
    filter_mismatched diff "Show All" = Ok diff /\
    filter_mismatched diff option = Raise (KeyError "Dataset").
Proof.
  intros H1 H2 Hno Hopt.
  destruct (reported_when_join_raises s df1 df2 D1 D2 m ln rn H1 H2 Hno)
    as (e & ref & s' & Hrun & Href & _).
  exists ref, s', empty_frame. split; [exact Hrun|]. split; [exact Href|].
  split; [done|]. unfold filter_mismatched.
  destruct (String.eqb_spec option "Show All") as [->|_]; done.
Qed.

(** X14 after the comparison of two columns of different names. *)
Lemma filter_after_a_failed_comparison_witness :
  exists ref s' diff,
    compare_datasets 0 1 scenario_rename_mapping "left" "right"
      (initial_state scenario_rename_left scenario_rename_right)
    = (Ok (false, ref), s') /\
    frames s' !! ref = Some diff /\
    filter_mismatched diff "Show All" = Ok diff /\
    filter_mismatched diff (only_in "left") = Raise (KeyError "Dataset").
Proof.
  apply (filter_after_a_failed_comparison
           (initial_state scenario_rename_left scenario_rename_right) 0 1
           scenario_rename_left scenario_rename_right scenario_rename_mapping
           "left" "right" (only_in "left")).
  - reflexivity.
  - reflexivity.
  - intros mg. vm_compute. discriminate.
  - apply only_in_not_show_all.
Defined.

(** ** Columns outside the mapping *)






